(** * lutron.py: device wrappers, Pico button timing and the MQTT command resolver

    A shallow embedding of [src/lutron.py].  Python values are a small tagged
    union, dictionaries that are scanned in insertion order are association
    lists, exceptions are an explicit error type, and the asyncio loop is a
    table of timer handles together with the clock reading of the callback
    that is running. *)

From Stdlib Require Import ZArith QArith List String Ascii Bool Lia Lqa.
From Stdlib Require Import DecimalString DecimalPos.
Import ListNotations.
Open Scope string_scope.
Open Scope Z_scope.

(** ** Python values and exceptions *)

(** The scalars a decoded payload, a device id or a device state can be. *)
Inductive PyVal : Type :=
| PyNone
| PyBool (b : bool)
| PyInt (n : Z)
| PyStr (s : string).

Inductive Exn : Type :=
| TypeError
| KeyError (key : string)
| IndexError
| AttributeError
| UnknownCommand (name : string).

Inductive Result (A : Type) : Type :=
| Ok (a : A)
| Raise (e : Exn).
Arguments Ok {A} a.
Arguments Raise {A} e.

Definition rbind {A B} (r : Result A) (k : A -> Result B) : Result B :=
  match r with
  | Ok a => k a
  | Raise e => Raise e
  end.

(** [str(n)] for an int. *)
Definition str_of_Z (n : Z) : string := NilZero.string_of_int (Z.to_int n).

(** [str(v)] *)
Definition py_str (v : PyVal) : string :=
  match v with
  | PyNone => "None"
  | PyBool true => "True"
  | PyBool false => "False"
  | PyInt n => str_of_Z n
  | PyStr s => s
  end.

(** [n == v] for an int [n]: a bool compares as the int 0 or 1. *)
Definition int_eq (n : Z) (v : PyVal) : bool :=
  match v with
  | PyInt m => n =? m
  | PyBool b => n =? (if b then 1 else 0)
  | PyNone | PyStr _ => false
  end.

(** [v > 0]: defined on numbers, a TypeError on None and on str. *)
Definition py_gt0 (v : PyVal) : Result bool :=
  match v with
  | PyInt n => Ok (0 <? n)
  | PyBool b => Ok b
  | PyNone | PyStr _ => Raise TypeError
  end.

(** ** String helpers (ASCII) *)

Definition is_upper (c : ascii) : bool :=
  let n := nat_of_ascii c in (Nat.leb 65 n && Nat.leb n 90)%bool.
Definition is_lower (c : ascii) : bool :=
  let n := nat_of_ascii c in (Nat.leb 97 n && Nat.leb n 122)%bool.
Definition is_digit (c : ascii) : bool :=
  let n := nat_of_ascii c in (Nat.leb 48 n && Nat.leb n 57)%bool.

Definition lower_ascii (c : ascii) : ascii :=
  if is_upper c then ascii_of_nat (nat_of_ascii c + 32) else c.
Definition upper_ascii (c : ascii) : ascii :=
  if is_lower c then ascii_of_nat (nat_of_ascii c - 32) else c.

Fixpoint smap (f : ascii -> ascii) (s : string) : string :=
  match s with
  | EmptyString => EmptyString
  | String c r => String (f c) (smap f r)
  end.

(** [s.lower()], [s.upper()], [s.replace(" ", "_")] *)
Definition lower (s : string) : string := smap lower_ascii s.
Definition upper (s : string) : string := smap upper_ascii s.
Definition replace_space (s : string) : string :=
  smap (fun c => if Ascii.eqb c " " then "_"%char else c) s.

Fixpoint all_digits (s : string) : bool :=
  match s with
  | EmptyString => true
  | String c r => (is_digit c && all_digits r)%bool
  end.

(** [s.isdigit()]: at least one character, all of them digits. *)
Definition isdigit (s : string) : bool :=
  match s with
  | EmptyString => false
  | _ => all_digits s
  end.

Fixpoint int_of_digits (acc : Z) (s : string) : Z :=
  match s with
  | EmptyString => acc
  | String c r => int_of_digits (10 * acc + Z.of_nat (nat_of_ascii c - 48)) r
  end.

(** [int(s)] on a digit string. *)
Definition int_of_string (s : string) : Z := int_of_digits 0 s.

(** [s.split(sep)]: every separator cuts, empty pieces are kept. *)
Fixpoint split_on (sep : ascii) (s : string) : list string :=
  match s with
  | EmptyString => [EmptyString]
  | String c r =>
      if Ascii.eqb c sep then EmptyString :: split_on sep r
      else match split_on sep r with
           | [] => [String c EmptyString]
           | p :: ps => String c p :: ps
           end
  end.

(** [l[-k]] for k >= 1: IndexError when the list is shorter than k. *)
Definition index_from_end {A} (l : list A) (k : nat) : Result A :=
  if Nat.ltb (List.length l) k then Raise IndexError
  else match nth_error l (List.length l - k) with
       | Some x => Ok x
       | None => Raise IndexError
       end.

(** [d[k]] and [d.get(k)] on a dictionary kept in insertion order. *)
Fixpoint assoc {V} (k : string) (d : list (string * V)) : option V :=
  match d with
  | [] => None
  | (k', v) :: r => if String.eqb k k' then Some v else assoc k r
  end.

Fixpoint assocZ {V} (k : Z) (d : list (Z * V)) : option V :=
  match d with
  | [] => None
  | (k', v) :: r => if k =? k' then Some v else assocZ k r
  end.

(** ** Devices *)

(** The device dictionary handed out by the bridge client; [button_number]
    is only read on buttons. *)
Record DeviceDict : Type := {
  dev_name : string;
  dev_device_id : string;
  dev_type : string;
  dev_current_state : PyVal;
  dev_button_number : Z
}.

(** What a device reaches through [self.parent]: [parent.bridge] (None until
    the session is set up) and, on it, the client's [is_on(device_id)]. *)
Record Parent : Type := {
  parent_bridge_is_on : option (string -> bool)
}.

Record Device : Type := {
  device : DeviceDict;
  parent : option Parent
}.

Definition name (d : DeviceDict) : string := lower (replace_space (dev_name d)).
Definition device_id (d : DeviceDict) : string := dev_device_id d.
Definition current_state (d : DeviceDict) : PyVal := dev_current_state d.

(** [Device.__bool__] *)
Definition Device_bool (self : Device) : Result bool :=
  match parent self with
  | Some p =>
      match parent_bridge_is_on p with
      | Some is_on => Ok (is_on (device_id (device self)))
      | None => Raise AttributeError
      end
  | None => py_gt0 (current_state (device self))
  end.

(** [Device.__str__] *)
Definition Device_str (self : Device) : Result string :=
  rbind (Device_bool self) (fun b => Ok (if b then "ON" else "OFF")).

(** ** Pico buttons *)

(** [PicoButton.picobuttons]: button layouts, ordinal to label.  A type that
    is not listed is added with an empty layout when a button of that type is
    constructed, so reading a missing type gives the empty layout. *)
Definition picobuttons : list (string * list (Z * string)) :=
  [ ("Pico1Button",           [(0, "Button")]);
    ("Pico2Button",           [(0, "On"); (1, "Off")]);
    ("Pico2ButtonRaiseLower", [(0, "On"); (1, "Off"); (2, "Raise"); (3, "Lower")]);
    ("Pico3Button",           [(0, "On"); (1, "Fav"); (2, "Off")]);
    ("Pico3ButtonRaiseLower", [(0, "On"); (1, "Fav"); (2, "Off"); (3, "Raise"); (4, "Lower")]);
    ("Pico4Button",           [(0, "1"); (1, "2"); (2, "3"); (3, "4")]);
    ("Pico4ButtonScene",      [(0, "On"); (1, "Off"); (2, "Preset 1"); (3, "Preset 2")]);
    ("Pico4Button2Group",     [(0, "Group 1 On"); (1, "Group 1 Off 2"); (2, "Group 2 On"); (3, "Group 2 Off")]);
    ("FourGroupRemote",       [(0, "Group 1 On"); (1, "Group 2 On 2"); (2, "Group 3 On"); (3, "Group 4 On")]) ].

Definition layout (type : string) : list (Z * string) :=
  match assoc type picobuttons with
  | Some l => l
  | None => []
  end.

Definition Event : Type := (string * string)%type.

Record PicoButton : Type := {
  pb_device : DeviceDict;
  pb_parent : option Parent;
  start : Q;
  _long_press_task : option nat
}.

Definition double_click_time : Q := 1 # 2.
Definition long_press_time : Q := 1.

Definition button_number (self : PicoButton) : Z := dev_button_number (pb_device self).

Definition button_name (self : PicoButton) : string :=
  match assocZ (button_number self) (layout (dev_type (pb_device self))) with
  | Some label => label
  | None => str_of_Z (button_number self)
  end.

(** [PicoButton.__bool__] *)
Definition PicoButton_bool (self : PicoButton) : bool :=
  match current_state (pb_device self) with
  | PyStr s => String.eqb s "Press"
  | _ => false
  end.

(** [str(self)] on a button *)
Definition PicoButton_str (self : PicoButton) : string :=
  if PicoButton_bool self then "ON" else "OFF".

(** [Device.publish]: forwarded to the parent when there is one (the parent
    drops a None message; the messages here are never None). *)
Definition publish (self : PicoButton) (topic msg : string) : list Event :=
  match pb_parent self with
  | Some _ => [(topic, msg)]
  | None => []
  end.

(** [PicoButton.button_number_from_name] *)
Definition button_number_from_name (self : PicoButton) (button : PyVal) : PyVal :=
  match button with
  | PyNone => PyBool false
  | PyBool _ | PyInt _ => button
  | PyStr s =>
      if isdigit s then PyInt (int_of_string s)
      else if String.eqb (upper (button_name self)) (upper s)
           then PyInt (button_number self)
           else PyNone
  end.

(** [PicoButton.match] *)
Definition button_match (self : PicoButton) (button : PyVal) : bool :=
  int_eq (button_number self) (button_number_from_name self button).

(** Feedback topics of a button. *)
Definition state_topic (self : PicoButton) : string :=
  name (pb_device self) ++ "/" ++ str_of_Z (button_number self).
Definition double_topic (self : PicoButton) : string := state_topic self ++ "/double".
Definition long_topic (self : PicoButton) : string := state_topic self ++ "/long".

(** ** The event loop's timers *)

(** An [asyncio.TimerHandle]: its deadline, whether [cancel()] was called on
    it, and whether the loop has already run it. *)
Record TimerHandle : Type := {
  when : Q;
  _cancelled : bool;
  _ran : bool
}.

Definition is_pending (h : TimerHandle) : bool := (negb (_cancelled h) && negb (_ran h))%bool.

Fixpoint update_nth {A} (f : A -> A) (i : nat) (l : list A) : list A :=
  match l, i with
  | [], _ => []
  | x :: r, O => f x :: r
  | x :: r, S j => x :: update_nth f j r
  end.

(** A button together with the handles its loop has handed out; a handle is
    referred to by its position. *)
Record World : Type := {
  button : PicoButton;
  handles : list TimerHandle
}.

Definition cancel (i : nat) (hs : list TimerHandle) : list TimerHandle :=
  update_nth (fun h => {| when := when h; _cancelled := true; _ran := _ran h |}) i hs.

Definition cancelled (i : nat) (hs : list TimerHandle) : bool :=
  match nth_error hs i with
  | Some h => _cancelled h
  | None => false
  end.

Definition mark_ran (i : nat) (hs : list TimerHandle) : list TimerHandle :=
  update_nth (fun h => {| when := when h; _cancelled := _cancelled h; _ran := true |}) i hs.

(** [loop.call_later(delay, ...)] at clock reading [now]. *)
Definition call_later (delay now : Q) (hs : list TimerHandle) : nat * list TimerHandle :=
  (List.length hs,
   (hs ++ [ {| when := (now + delay)%Q; _cancelled := false; _ran := false |} ])%list).

Definition with_task (b : PicoButton) (t : option nat) : PicoButton :=
  {| pb_device := pb_device b; pb_parent := pb_parent b; start := start b; _long_press_task := t |}.

Definition with_start (b : PicoButton) (t : Q) : PicoButton :=
  {| pb_device := pb_device b; pb_parent := pb_parent b; start := t;
     _long_press_task := _long_press_task b |}.

Definition with_state (b : PicoButton) (v : PyVal) : PicoButton :=
  {| pb_device := {| dev_name := dev_name (pb_device b);
                     dev_device_id := dev_device_id (pb_device b);
                     dev_type := dev_type (pb_device b);
                     dev_current_state := v;
                     dev_button_number := dev_button_number (pb_device b) |};
     pb_parent := pb_parent b; start := start b;
     _long_press_task := _long_press_task b |}.

(** [PicoButton.long_press]: the published events, the returned handle (or
    None) and the loop's handles afterwards. *)
Definition long_press (now : Q) (w : World) : list Event * option nat * list TimerHandle :=
  let self := button w in
  let publish_and_cancel (i : nat) :=
    (publish self (long_topic self) (PicoButton_str self), None, cancel i (handles w)) in
  if PicoButton_bool self then
    match _long_press_task self with
    | None =>
        let '(i, hs) := call_later long_press_time now (handles w) in ([], Some i, hs)
    | Some i => publish_and_cancel i
    end
  else
    match _long_press_task self with
    | None => ([], None, handles w)
    | Some i =>
        if negb (cancelled i (handles w)) then ([], None, cancel i (handles w))
        else publish_and_cancel i
    end.

(** [PicoButton.timing] *)
Definition timing (now : Q) (w : World) : list Event * World :=
  let self := button w in
  let '(ev1, self1) :=
    if PicoButton_bool self then
      ((if Qle_bool (now - start self) double_click_time
        then publish self (double_topic self) (PicoButton_str self) else []),
       with_start self now)
    else ([], self) in
  let '(ev2, task, hs) := long_press now {| button := self1; handles := handles w |} in
  ((ev1 ++ ev2)%list, {| button := with_task self1 task; handles := hs |}).

(** [==] between two values. *)
Definition py_eq (a b : PyVal) : bool :=
  match a, b with
  | PyNone, PyNone => true
  | PyStr s, PyStr t => String.eqb s t
  | PyInt n, _ => int_eq n b
  | PyBool x, _ => int_eq (if x then 1 else 0) b
  | _, _ => false
  end.

(** The first lines of [PicoButton.__call__]: a message that differs from
    the current state replaces it. *)
Definition receive (self : PicoButton) (msg : PyVal) : PicoButton :=
  match msg with
  | PyNone => self
  | _ => if negb (py_eq (current_state (pb_device self)) msg) then with_state self msg else self
  end.

(** [PicoButton.__call__(msg)] run at clock reading [now]. *)
Definition PicoButton_call (msg : PyVal) (now : Q) (w : World) : list Event * World :=
  let self1 := receive (button w) msg in
  let ev0 := publish self1 (state_topic self1) (PicoButton_str self1) in
  let '(ev, w') := timing now {| button := self1; handles := handles w |} in
  ((ev0 ++ ev)%list, w').

(** The loop runs handle [i]: the callback is [self.long_press], its return
    value is dropped. *)
Definition run_handle (i : nat) (now : Q) (w : World) : list Event * World :=
  let w1 := {| button := button w; handles := mark_ran i (handles w) |} in
  let '(ev, _, hs) := long_press now w1 in
  (ev, {| button := button w; handles := hs |}).

Definition is_due (now : Q) (h : TimerHandle) : bool :=
  (is_pending h && Qle_bool (when h) now)%bool.

(** One pass of the loop over the handles that exist when it starts, in the
    order they were created (all deadlines use the same delay): every handle
    that is pending and due at [now] is run. *)
Fixpoint run_due_from (ids : list nat) (now : Q) (w : World) : list Event * World :=
  match ids with
  | [] => ([], w)
  | i :: r =>
      match nth_error (handles w) i with
      | Some h =>
          if is_due now h then
            let '(ev, w1) := run_handle i now w in
            let '(ev', w2) := run_due_from r now w1 in
            ((ev ++ ev')%list, w2)
          else run_due_from r now w
      | None => run_due_from r now w
      end
  end.

Definition run_due (now : Q) (w : World) : list Event * World :=
  run_due_from (seq 0 (List.length (handles w))) now w.

(** A state notification from the bridge reaches the button at clock
    reading [now]: timers that are due by then have run first. *)
Definition deliver (now : Q) (msg : PyVal) (w : World) : list Event * World :=
  let '(ev1, w1) := run_due now w in
  let '(ev2, w2) := PicoButton_call msg now w1 in
  ((ev1 ++ ev2)%list, w2).

(** A trace of timed notifications. *)
Fixpoint run_trace (tr : list (Q * PyVal)) (w : World) : list Event * World :=
  match tr with
  | [] => ([], w)
  | (t, msg) :: r =>
      let '(ev, w1) := deliver t msg w in
      let '(ev', w2) := run_trace r w1 in
      ((ev ++ ev')%list, w2)
  end.

(** ** The command resolver *)

(** Logging (records at warning level) and exceptions. *)
Inductive LogRecord : Type :=
| Warning (text : string).

Definition M (A : Type) : Type := (list LogRecord * Result A)%type.

Definition ret {A} (a : A) : M A := ([], Ok a).
Definition raise {A} (e : Exn) : M A := ([], Raise e).
Definition warning (text : string) : M unit := ([Warning text], Ok tt).
Definition lift {A} (r : Result A) : M A := ([], r).

Definition mbind {A B} (m : M A) (k : A -> M B) : M B :=
  match m with
  | (log, Ok a) => let '(log', r) := k a in ((log ++ log')%list, r)
  | (log, Raise e) => (log, Raise e)
  end.

Notation "x <- c ;; k" := (mbind c (fun x => k))
  (at level 61, c at next level, right associativity).
Notation "' p <- c ;; k" := (mbind c (fun x => let p := x in k))
  (at level 61, p pattern, c at next level, right associativity).

(** [inspect.signature(f).parameters] is all the resolver reads of a callable. *)
Record Callable : Type := {
  parameters : list string
}.

(** The bridge client's two registries, in insertion order. *)
Record Smartbridge : Type := {
  _button_subscribers : list (string * PicoButton);
  _subscribers : list (string * Device)
}.

Record Caseta : Type := {
  _name : string;
  _method_dict : list (string * Callable);
  bridge_methods : list (string * Callable);
  bridge : option Smartbridge
}.

Record Msg : Type := {
  topic : string;
  payload : string
}.

(** What the base resolver returns as [args]: one value or a list. *)
Inductive RawArgs : Type :=
| Scalar (v : PyVal)
| ArgList (l : list PyVal).

(** An element of the final argument list: a value or the bridge handle. *)
Inductive Arg : Type :=
| AVal (v : PyVal)
| ABridge.

Definition str_truthy (s : string) : bool := negb (String.eqb s "").

Definition is_none (v : PyVal) : bool :=
  match v with
  | PyNone => true
  | _ => false
  end.

Fixpoint find_button (device_name : string) (button : PyVal)
    (l : list (string * PicoButton)) : option string :=
  match l with
  | [] => None
  | (id, b) :: r =>
      if (String.eqb device_name (name (pb_device b)) && button_match b button)%bool
      then Some id else find_button device_name button r
  end.

Fixpoint find_device (device_name : string) (l : list (string * Device)) : option string :=
  match l with
  | [] => None
  | (id, d) :: r =>
      if String.eqb device_name (name (device d)) then Some id
      else find_device device_name r
  end.

(** [Caseta._device_id_from_name(device_name, button_number)] *)
Definition _device_id_from_name (self : Caseta) (device_name : option string)
    (button : PyVal) : M (option string * bool) :=
  match device_name with
  | Some dn =>
      if str_truthy dn then
        match bridge self with
        | None => raise AttributeError
        | Some br =>
            match find_button dn button (_button_subscribers br) with
            | Some id => ret (Some id, true)
            | None =>
                match find_device dn (_subscribers br) with
                | Some id => ret (Some id, false)
                | None =>
                    _ <- warning ("Device: " ++ dn ++ " NOT FOUND") ;;
                    ret (None, false)
                end
            end
        end
      else ret (None, false)
  | None => ret (None, false)
  end.

(** The call [self._device_id_from_name(device_name, *args)]: the callee
    takes one positional argument after the name. *)
Definition call_device_id_from_name (self : Caseta) (device_name : option string)
    (args : list PyVal) : M (option string * bool) :=
  match args with
  | [] => _device_id_from_name self device_name PyNone
  | [a] => _device_id_from_name self device_name a
  | _ :: _ :: _ => raise TypeError
  end.

Definition opt_string_eqb (a b : option string) : bool :=
  match a, b with
  | Some x, Some y => String.eqb x y
  | None, None => true
  | _, _ => false
  end.

(** Lines 404-406: the device name taken from the topic. *)
Definition target_device_name (self : Caseta) (topic : string)
    (command : option string) : Result (option string) :=
  let segs := split_on "/" topic in
  rbind (index_from_end segs 2) (fun device_name =>
  rbind (if String.eqb device_name (_name self) then index_from_end segs 1
         else Ok device_name) (fun device_name =>
  Ok (if opt_string_eqb (Some device_name) command then None else Some device_name))).

(** Line 408 *)
Definition as_list (args : RawArgs) : list PyVal :=
  match args with
  | ArgList l => l
  | Scalar v => [v]
  end.

(** Line 409 *)
Definition nparams_of (self : Caseta) (command : option string)
    (args : list PyVal) : Result nat :=
  match command with
  | Some c =>
      if str_truthy c then
        match assoc c (_method_dict self) with
        | Some f => Ok (List.length (parameters f))
        | None => Raise (KeyError c)
        end
      else Ok (List.length args)
  | None => Ok (List.length args)
  end.

(** Line 410 *)
Definition bridge_handle (self : Caseta) (command : option string) : option Smartbridge :=
  match command with
  | Some c =>
      match assoc c (bridge_methods self) with
      | Some _ => bridge self
      | None => None
      end
  | None => None
  end.

(** Lines 412-419: the argument list before truncation. *)
Definition assemble_args (command : option string) (args : list PyVal)
    (device_id : option string) (is_button : bool) (br : option Smartbridge) : list Arg :=
  let args1 :=
    map (fun a => AVal (if opt_string_eqb command (Some "activate_scene")
                        then PyStr (py_str a) else a))
        (filter (fun a => negb (is_none a)) args) in
  let args2 :=
    match device_id with
    | Some id =>
        if str_truthy id then
          if is_button then [AVal (PyStr id)] else AVal (PyStr id) :: args1
        else args1
    | None => args1
    end in
  match br with
  | Some _ => ABridge :: args2
  | None => args2
  end.

Section Resolver.

(** [MQTT._get_command] of the base class: command and args of a message. *)
Variable super_get_command : Caseta -> Msg -> M (option string * RawArgs).

(** [Caseta._get_command] *)
Definition Caseta_get_command (self : Caseta) (msg : Msg) : M (option string * list Arg) :=
  '(command, args) <- super_get_command self msg ;;
  device_name <- lift (target_device_name self (topic msg) command) ;;
  let args := as_list args in
  nparams <- lift (nparams_of self command args) ;;
  let br := bridge_handle self command in
  '(device_id, is_button) <- call_device_id_from_name self device_name args ;;
  let args := assemble_args command args device_id is_button br in
  ret (command, firstn nparams args).

End Resolver.

(** ** The base resolver and the message handler *)

(** What happens to one inbound message. *)
Inductive Outcome : Type :=
| Invoked (command : string) (args : list Arg)
| Dropped
| Escaped (e : Exn).

Section BaseResolver.

(** The command used when the topic names none, and the payload decoder. *)
Variable default_command : string.
Variable decode : string -> RawArgs.

(** Modelled from the spec: the command name of a message, part of
    [MQTT._get_command] in mqtt.py, which is not among the sources.
    Section 4.2 step 1: the topic's first segment, or a fixed default
    command if the topic carries none. *)
Definition command_name (msg : Msg) : string :=
  match split_on "/" (topic msg) with
  | first :: _ => if str_truthy first then first else default_command
  | [] => default_command
  end.

(** Modelled from the spec: [MQTT._get_command] of mqtt.py, which is not
    among the sources.  Section 4.2 steps 1 and 3: the command name is
    looked up in the dispatch table and the resolution fails with
    UnknownCommand if it is absent; otherwise the raw args are the decoded
    payload. *)
Definition MQTT_get_command (self : Caseta) (msg : Msg) : M (option string * RawArgs) :=
  let c := command_name msg in
  match assoc c (_method_dict self) with
  | Some _ => ret (Some c, decode (payload msg))
  | None => raise (UnknownCommand c)
  end.

(** Modelled from the spec: the message handler of mqtt.py, which is not
    among the sources.  Section 7: UnknownCommand is surfaced as a logged
    warning and the message is dropped; a resolved command is invoked with
    the final args. *)
Definition on_message (self : Caseta) (msg : Msg) : list LogRecord * Outcome :=
  match Caseta_get_command MQTT_get_command self msg with
  | (log, Ok (Some c, args)) => (log, Invoked c args)
  | (log, Ok (None, _)) => (log, Dropped)
  | (log, Raise (UnknownCommand c)) =>
      ((log ++ [Warning ("Unknown command: " ++ c)])%list, Dropped)
  | (log, Raise e) => (log, Escaped e)
  end.

End BaseResolver.

(** ** A small installation used in the examples *)

Module Home.

Definition facade : Parent := {| parent_bridge_is_on := Some (fun id => String.eqb id "7") |}.

Definition kitchen_lights : Device :=
  {| device := {| dev_name := "Kitchen Lights"; dev_device_id := "4"; dev_type := "WallDimmer";
                  dev_current_state := PyInt 0; dev_button_number := 0 |};
     parent := Some facade |}.

(** A fan that is running: the bridge reports it on, its level is 0. *)
Definition ceiling_fan : Device :=
  {| device := {| dev_name := "Ceiling Fan"; dev_device_id := "7"; dev_type := "CasetaFanSpeedController";
                  dev_current_state := PyInt 0; dev_button_number := 0 |};
     parent := Some facade |}.

(** A wrapper built without a parent. *)
Definition bare_dimmer : Device :=
  {| device := {| dev_name := "Desk Lamp"; dev_device_id := "5"; dev_type := "PlugInDimmer";
                  dev_current_state := PyInt 40; dev_button_number := 0 |};
     parent := None |}.

Definition remote_button (id : string) (n : Z) : PicoButton :=
  {| pb_device := {| dev_name := "Living Room Remote"; dev_device_id := id;
                     dev_type := "Pico3ButtonRaiseLower";
                     dev_current_state := PyStr "Release"; dev_button_number := n |};
     pb_parent := Some facade; start := 0; _long_press_task := None |}.

Definition smartbridge : Smartbridge :=
  {| _button_subscribers :=
       [("101", remote_button "101" 0); ("102", remote_button "102" 1);
        ("103", remote_button "103" 2)];
     _subscribers := [("4", kitchen_lights); ("7", ceiling_fan)] |}.

Definition activate_scene : Callable := {| parameters := ["self"; "scene_id"] |}.

Definition caseta : Caseta :=
  {| _name := "caseta";
     _method_dict :=
       [("set_value", {| parameters := ["device_id"; "value"; "fade_time"] |});
        ("click", {| parameters := ["button_id"] |});
        ("press", {| parameters := ["button_id"] |});
        ("release", {| parameters := ["button_id"] |});
        ("refresh", {| parameters := ["refresh"] |});
        ("status", {| parameters := [] |});
        ("activate_scene", activate_scene)];
     bridge_methods := [("activate_scene", activate_scene)];
     bridge := Some smartbridge |}.

(** A base resolver that hands back a fixed command and args. *)
Definition hands_back (command : option string) (args : RawArgs)
    : Caseta -> Msg -> M (option string * RawArgs) :=
  fun _ _ => ret (command, args).

Definition world : World := {| button := remote_button "103" 2; handles := [] |}.

End Home.

(** ** Vocabulary of the properties *)

(** The number a value counts as in a comparison, if any. *)
Definition as_number (v : PyVal) : option Z :=
  match v with
  | PyInt n => Some n
  | PyBool b => Some (if b then 1 else 0)
  | PyNone | PyStr _ => None
  end.


(** The two states a button reports. *)
Definition Press : PyVal := PyStr "Press".
Definition Release : PyVal := PyStr "Release".

Definition on_topic (t : string) (evs : list Event) : list Event :=
  filter (fun e => String.eqb (fst e) t) evs.

(** Timers that are armed: neither cancelled nor run. *)
Definition pending_count (w : World) : nat := List.length (filter is_pending (handles w)).

(** Every armed timer is the one the button holds in [_long_press_task]. *)
Definition tracked (w : World) : Prop :=
  forall i h, nth_error (handles w) i = Some h -> is_pending h = true ->
              _long_press_task (button w) = Some i.

(** No timer is armed and the button holds none. *)
Definition quiescent (w : World) : Prop :=
  _long_press_task (button w) = None /\ Forall (fun h => is_pending h = false) (handles w).

(** A button as [__init__] leaves it, on a loop that has no timer of it. *)
Definition initial (w : World) : Prop :=
  _long_press_task (button w) = None /\ handles w = [].

(** What can happen to a button: a notification arrives, or the loop runs a
    timer that is armed. *)
Inductive step : World -> World -> Prop :=
| step_notify (msg : PyVal) (now : Q) (w : World) :
    step w (snd (PicoButton_call msg now w))
| step_fire (i : nat) (h : TimerHandle) (now : Q) (w : World) :
    nth_error (handles w) i = Some h -> is_pending h = true ->
    step w (snd (run_handle i now w)).

Inductive steps : World -> World -> Prop :=
| steps_refl (w : World) : steps w w
| steps_next (w1 w2 w3 : World) : steps w1 w2 -> step w2 w3 -> steps w1 w3.

(** One press, its release, and the release notifications repeated after it. *)
Record Cycle : Type := {
  press_at : Q;
  release_at : Q;
  retries : list Q
}.

Definition cycle_trace (c : Cycle) : list (Q * PyVal) :=
  (press_at c, Press) :: (release_at c, Release) :: map (fun t => (t, Release)) (retries c).

(** The press lasted at least the long-press time. *)
Definition held_long (c : Cycle) : bool :=
  Qle_bool long_press_time (release_at c - press_at c).

(** Two snapshots of one button: same feedback topic, same parent. *)
Definition same_button (b b' : PicoButton) : Prop :=
  state_topic b' = state_topic b /\ pb_parent b' = pb_parent b.

(** Events that all go to the button's long-press topic. *)
Definition on_long (b : PicoButton) (evs : list Event) : Prop :=
  Forall (fun e => fst e = long_topic b) evs.

(** The button is pressed and holds the timer armed at the press at [t0],
    the only timer that is armed. *)
Definition armed (t0 : Q) (w : World) : Prop :=
  exists hs,
    handles w =
      (hs ++ [ {| when := (t0 + long_press_time)%Q; _cancelled := false; _ran := false |} ])%list /\
    Forall (fun h => is_pending h = false) hs /\
    _long_press_task (button w) = Some (List.length hs) /\
    PicoButton_bool (button w) = true.

(** What a cycle puts on the long-press topic: the long press and its
    release when the press was held, nothing otherwise. *)
Definition long_events (b : PicoButton) (c : Cycle) : list Event :=
  if held_long c then [(long_topic b, "ON"); (long_topic b, "OFF")] else [].

(** ** Construction of the wrappers and of the service *)

Fixpoint sforall (p : ascii -> bool) (s : string) : bool :=
  match s with
  | EmptyString => true
  | String c r => (p c && sforall p r)%bool
  end.

(** A name as [Device.name] produces them: no space, no upper-case letter. *)
Definition is_normal (s : string) : bool :=
  sforall (fun c => negb (Ascii.eqb c " ") && negb (is_upper c))%bool s.

(** A string of ASCII characters: on these the byte-wise [lower], [upper]
    and [isdigit] are Python's. *)
Definition is_ascii (s : string) : bool :=
  sforall (fun c => Nat.ltb (nat_of_ascii c) 128) s.

(** A designator on which [button_number_from_name] does not raise: None, a
    bool, an int or an ASCII string. *)
Definition ascii_designator (v : PyVal) : bool :=
  match v with
  | PyStr s => is_ascii s
  | _ => true
  end.

(** [PicoButton.__init__] at clock reading [now]. *)
Definition PicoButton_init (d : DeviceDict) (p : option Parent) (now : Q) : PicoButton :=
  {| pb_device := d; pb_parent := p; start := now; _long_press_task := None |}.

(** An attribute of the [Smartbridge] class, as [dir] and [getattr] show it:
    a callable or something else. *)
Inductive Attr : Type :=
| Method (f : Callable)
| Data.

(** [func.startswith("_")] *)
Definition startswith_underscore (s : string) : bool :=
  match s with
  | String c _ => Ascii.eqb c "_"
  | EmptyString => false
  end.

(** [d[k] = v] on a dictionary kept in insertion order. *)
Fixpoint dict_set {V} (k : string) (v : V) (d : list (string * V)) : list (string * V) :=
  match d with
  | [] => [(k, v)]
  | (k', v') :: r =>
      if String.eqb k k' then (k, v) :: r else (k', v') :: dict_set k v r
  end.

(** [k in d.keys()] *)
Definition has_key {V} (k : string) (d : list (string * V)) : bool :=
  match assoc k d with
  | Some _ => true
  | None => false
  end.

(** [d.update(new)] *)
Definition dict_update {V} (d new : list (string * V)) : list (string * V) :=
  fold_left (fun acc kv => dict_set (fst kv) (snd kv) acc) new d.

(** Line 266: the public callables of the bridge client that the service
    does not define itself. *)
Definition build_bridge_methods (own : list (string * Callable))
    (dir : list (string * Attr)) : list (string * Callable) :=
  fold_left
    (fun acc entry =>
       match snd entry with
       | Method f =>
           if (negb (startswith_underscore (fst entry)) && negb (has_key (fst entry) own))%bool
           then dict_set (fst entry) f acc else acc
       | Data => acc
       end)
    dir [].

(** [Caseta.__init__]: [own] is the dispatch table the base class has built,
    [dir] the attributes of the [Smartbridge] class. *)
Definition Caseta_init (name : string) (own : list (string * Callable))
    (dir : list (string * Attr)) : Caseta :=
  let bm := build_bridge_methods own dir in
  {| _name := name;
     _method_dict := dict_update own bm;
     bridge_methods := bm;
     bridge := None |}.

(** [Caseta._setup] when the certificates are there: the bridge is created. *)
Definition with_bridge (self : Caseta) (br : Smartbridge) : Caseta :=
  {| _name := _name self;
     _method_dict := _method_dict self;
     bridge_methods := bridge_methods self;
     bridge := Some br |}.

(** ** set_value *)

(** An argument of [set_value]: a scalar or a tuple. *)
#[warnings="-register-all"]
Inductive PyArg : Type :=
| Atom (v : PyVal)
| Tuple (items : list PyArg).

(** The call [bridge.set_value(device_id, value, timedelta(seconds=...))]. *)
Record BridgeCall : Type := {
  call_device_id : PyArg;
  call_value : PyArg;
  call_fade_seconds : Z
}.

(** [timedelta(seconds=x)]: a number is needed. *)
Definition timedelta_seconds (x : PyArg) : Result Z :=
  match x with
  | Atom (PyInt n) => Ok n
  | Atom (PyBool b) => Ok (if b then 1 else 0)
  | Atom PyNone | Atom (PyStr _) | Tuple _ => Raise TypeError
  end.

Section SetValue.

(** [int(s)] on a string, Python's own parser. *)
Variable int_of_str : string -> Result Z.

(** [int(x)] *)
Definition py_int (x : PyArg) : Result Z :=
  match x with
  | Atom (PyInt n) => Ok n
  | Atom (PyBool b) => Ok (if b then 1 else 0)
  | Atom (PyStr s) => int_of_str s
  | Atom PyNone | Tuple _ => Raise TypeError
  end.

(** Lines 361-363: a tuple carries the value and the fade time. *)
Definition unpack_value (value fade_time : PyArg) : Result (PyArg * PyArg) :=
  match value with
  | Tuple items =>
      match nth_error items 1 with
      | None => Raise IndexError
      | Some f =>
          rbind (py_int f) (fun n =>
          match nth_error items 0 with
          | None => Raise IndexError
          | Some v => Ok (v, Atom (PyInt n))
          end)
      end
  | Atom _ => Ok (value, fade_time)
  end.

(** Lines 364-365: a string is a level word or a number. *)
Definition parse_level (value : PyArg) : Result PyArg :=
  match value with
  | Atom (PyStr s) =>
      if String.eqb (upper s) "OFF" then Ok (Atom (PyInt 0))
      else if String.eqb (upper s) "ON" then Ok (Atom (PyInt 100))
      else rbind (int_of_str s) (fun n => Ok (Atom (PyInt n)))
  | _ => Ok value
  end.

(** [Caseta.set_value]: the call made on the bridge. *)
Definition set_value (self : Caseta) (device_id value fade_time : PyArg) : Result BridgeCall :=
  rbind (unpack_value value fade_time) (fun vf =>
  rbind (parse_level (fst vf)) (fun level =>
  match bridge self with
  | None => Raise AttributeError
  | Some _ =>
      rbind (timedelta_seconds (snd vf)) (fun secs =>
      Ok {| call_device_id := device_id; call_value := level; call_fade_seconds := secs |})
  end)).

End SetValue.

(** ** A start-up used in the examples *)

Module Startup.

(** The dispatch table of the service's own commands. *)
Definition own : list (string * Callable) :=
  [("set_value", {| parameters := ["device_id"; "value"; "fade_time"] |});
   ("click", {| parameters := ["button_id"] |});
   ("press", {| parameters := ["button_id"] |});
   ("release", {| parameters := ["button_id"] |});
   ("refresh", {| parameters := ["refresh"] |});
   ("status", {| parameters := [] |})].

(** Some attributes of the bridge client's class. *)
Definition dir : list (string * Attr) :=
  [("_request", Method {| parameters := ["self"; "communique_type"; "url"; "body"] |});
   ("activate_scene", Method {| parameters := ["self"; "scene_id"] |});
   ("devices", Data);
   ("is_connected", Method {| parameters := ["self"] |});
   ("set_value", Method {| parameters := ["self"; "device_id"; "value"; "fade_time"] |})].

End Startup.

(** ** The resolver's lists as objects *)

(** The list objects of the interpreter: the object at address [a] is the
    [a]-th entry, and a list is changed in place by rewriting its entry.
    The items are values or the bridge handle. *)
Definition Store : Type := list (list Arg).

Definition read (a : nat) (h : Store) : list Arg := nth a h [].

(** A new list object. *)
Definition alloc (l : list Arg) (h : Store) : nat * Store :=
  (List.length h, (h ++ [l])%list).

(** [args.insert(0, x)] on the list at address [a]. *)
Definition insert0 (a : nat) (x : Arg) (h : Store) : Store := update_nth (cons x) a h.

(** What [super()._get_command] returned as args: a value that is not a
    list, or a list object. *)
Inductive ArgsVar : Type :=
| NotList (v : PyVal)
| ListAt (a : nat).

(** A list that the variable refers to exists. *)
Definition args_valid (args : ArgsVar) (h : Store) : Prop :=
  match args with
  | NotList _ => True
  | ListAt a => (a < List.length h)%nat
  end.

(** The items that line 408 leaves in [args]. *)
Definition content (args : ArgsVar) (h : Store) : list Arg :=
  match args with
  | NotList v => [AVal v]
  | ListAt a => read a h
  end.

(** [str] of the bridge handle: the default representation of an object
    (Python adds the object's address to it). *)
Definition handle_str : string := "<pylutron_caseta.smartbridge.Smartbridge object>".

Definition arg_is_none (x : Arg) : bool :=
  match x with
  | AVal PyNone => true
  | _ => false
  end.

(** [str(a)] on an item. *)
Definition arg_str (x : Arg) : Arg :=
  match x with
  | AVal v => AVal (PyStr (py_str v))
  | ABridge => AVal (PyStr handle_str)
  end.

Fixpoint button_named (dn : string) (l : list (string * PicoButton)) : bool :=
  match l with
  | [] => false
  | (_, b) :: r => (String.eqb dn (name (pb_device b)) || button_named dn r)%bool
  end.

(** [_device_id_from_name(device_name, x)] for an item [x]: on a designator
    that is an object without [isdigit], [match] raises at the first button
    of that name. *)
Definition lookup_item (self : Caseta) (device_name : option string) (x : Arg)
    : M (option string * bool) :=
  match x with
  | AVal v => _device_id_from_name self device_name v
  | ABridge =>
      match device_name with
      | Some dn =>
          if str_truthy dn then
            match bridge self with
            | None => raise AttributeError
            | Some br =>
                if button_named dn (_button_subscribers br) then raise AttributeError
                else match find_device dn (_subscribers br) with
                     | Some id => ret (Some id, false)
                     | None =>
                         _ <- warning ("Device: " ++ dn ++ " NOT FOUND") ;;
                         ret (None, false)
                     end
            end
          else ret (None, false)
      | None => ret (None, false)
      end
  end.

(** Line 411 on the items of the list. *)
Definition call_lookup_items (self : Caseta) (device_name : option string)
    (items : list Arg) : M (option string * bool) :=
  match items with
  | [] => _device_id_from_name self device_name PyNone
  | [x] => lookup_item self device_name x
  | _ :: _ :: _ => raise TypeError
  end.

(** Line 409 on the items of the list. *)
Definition nparams_items (self : Caseta) (command : option string)
    (items : list Arg) : Result nat :=
  match command with
  | Some c =>
      if str_truthy c then
        match assoc c (_method_dict self) with
        | Some f => Ok (List.length (parameters f))
        | None => Raise (KeyError c)
        end
      else Ok (List.length items)
  | None => Ok (List.length items)
  end.

(** Line 412: the list comprehension. *)
Definition comprehension (command : option string) (items : list Arg) : list Arg :=
  map (fun a => if opt_string_eqb command (Some "activate_scene") then arg_str a else a)
      (filter (fun a => negb (arg_is_none a)) items).

(** Lines 412-420 on the store: the comprehension makes a new list, a button
    id replaces it by another new list, a device id and the bridge handle
    are inserted in place, and the slice makes the list that is returned. *)
Definition lines_412_420 (command : option string) (a : nat) (dev : option string)
    (is_button : bool) (br : option Smartbridge) (n : nat) (h : Store) : nat * Store :=
  let '(b, h2) := alloc (comprehension command (read a h)) h in
  let '(b, h3) :=
    match dev with
    | Some id =>
        if str_truthy id then
          if is_button then alloc [AVal (PyStr id)] h2
          else (b, insert0 b (AVal (PyStr id)) h2)
        else (b, h2)
    | None => (b, h2)
    end in
  let h4 :=
    match br with
    | Some _ => insert0 b ABridge h3
    | None => h3
    end in
  alloc (firstn n (read b h4)) h4.

(** [Caseta._get_command] after the call of the base resolver, with its
    lists in the store: the result is the command, the address of the final
    list and the store it leaves. *)
Definition Caseta_get_command_store (self : Caseta) (tpc : string)
    (command : option string) (args : ArgsVar) (h : Store)
    : list LogRecord * Result ((option string * nat) * Store) :=
  match target_device_name self tpc command with
  | Raise e => ([], Raise e)
  | Ok device_name =>
      let '(a, h1) :=
        match args with
        | ListAt a => (a, h)
        | NotList v => alloc [AVal v] h
        end in
      match nparams_items self command (read a h1) with
      | Raise e => ([], Raise e)
      | Ok n =>
          let br := bridge_handle self command in
          match call_lookup_items self device_name (read a h1) with
          | (log, Raise e) => (log, Raise e)
          | (log, Ok (dev, is_button)) =>
              let '(r, h5) := lines_412_420 command a dev is_button br n h1 in
              (log, Ok ((command, r), h5))
          end
      end
  end.

(** The list that lines 412-419 build from the items, as a value. *)
Definition assemble_items (command : option string) (items : list Arg)
    (dev : option string) (is_button : bool) (br : option Smartbridge) : list Arg :=
  let args1 := comprehension command items in
  let args2 :=
    match dev with
    | Some id =>
        if str_truthy id then
          if is_button then [AVal (PyStr id)] else AVal (PyStr id) :: args1
        else args1
    | None => args1
    end in
  match br with
  | Some _ => ABridge :: args2
  | None => args2
  end.
(** * Properties *)

(** ** Devices *)

(** C1, as the spec states it, fails on a registered device: the running fan
    of the example has level 0, yet it is on and displays "ON", because a
    wrapper with a parent asks the bridge. *)
Lemma registered_fan_on_at_level_zero :
  parent Home.ceiling_fan <> None /\
  py_gt0 (current_state (device Home.ceiling_fan)) = Ok false /\
  Device_bool Home.ceiling_fan = Ok true /\
  Device_str Home.ceiling_fan = Ok "ON" /\
  current_state (device Home.kitchen_lights) = current_state (device Home.ceiling_fan) /\
  Device_str Home.kitchen_lights = Ok "OFF".
Proof.
  repeat split; try reflexivity.
  discriminate.
Qed.

(** C1 (amended): whenever is_on() answers [b], to_display_string() is "ON"
    if [b] and "OFF" otherwise; for a wrapper without a parent [b] says that
    the numeric current_state is greater than zero, and for a wrapper with a
    parent (every registered device) [b] is the bridge's is_on(device_id). *)
Theorem Device_str_follows_bool (d : Device) (b : bool) (H : Device_bool d = Ok b) :
  Device_str d = Ok (if b then "ON" else "OFF") /\
  match parent d with
  | None => exists n, as_number (current_state (device d)) = Some n /\ (b = true <-> 0 < n)
  | Some p => exists is_on, parent_bridge_is_on p = Some is_on /\ b = is_on (device_id (device d))
  end.
Proof.
  split.
  - unfold Device_str. rewrite H. reflexivity.
  - unfold Device_bool in H. destruct (parent d) as [p|].
    + destruct (parent_bridge_is_on p) as [f|]; [|discriminate].
      exists f. split; [reflexivity|]. congruence.
    + destruct (current_state (device d)) as [| x | n | s]; simpl in H; try discriminate.
      * exists (if x then 1 else 0). split; [reflexivity|].
        injection H as <-. destruct x; split; intro; try lia; try discriminate; reflexivity.
      * exists n. split; [reflexivity|].
        injection H as <-. apply Z.ltb_lt.
Qed.

Lemma Device_str_follows_bool_witness :
  Device_bool Home.bare_dimmer = Ok true /\
  Device_str Home.bare_dimmer = Ok "ON" /\
  Device_bool Home.ceiling_fan = Ok true /\
  Device_str Home.ceiling_fan = Ok "ON".
Proof.
  split; [reflexivity|]. split.
  - exact (proj1 (Device_str_follows_bool Home.bare_dimmer true eq_refl)).
  - split; [reflexivity|].
    exact (proj1 (Device_str_follows_bool Home.ceiling_fan true eq_refl)).
Defined.

(** ** Button designators *)

Lemma find_button_sound (dn : string) (v : PyVal) (l : list (string * PicoButton)) (id : string) :
  find_button dn v l = Some id ->
  exists b, In (id, b) l /\ name (pb_device b) = dn /\ button_match b v = true.
Proof.
  induction l as [| [k b] r IH]; simpl; [discriminate|].
  destruct (String.eqb dn (name (pb_device b)) && button_match b v)%bool eqn:E.
  - intros [= <-]. apply andb_prop in E as [En Em].
    apply String.eqb_eq in En. exists b. auto.
  - intros Hf. destruct (IH Hf) as (b' & Hin & Hn & Hm). exists b'. auto.
Qed.

Lemma button_match_None (b : PicoButton) :
  button_match b PyNone = (button_number b =? 0).
Proof. reflexivity. Qed.

(** C10: button_number_from_name(None) is False, so match(None) is true
    exactly on the button whose ordinal is 0; a lookup without a designator
    that finds a button therefore returns the id of a registered button of
    that name whose ordinal is 0. *)
Theorem match_without_designator (self : Caseta) (dn : option string)
    (log : list LogRecord) (id : string)
    (H : _device_id_from_name self dn PyNone = (log, Ok (Some id, true))) :
  (forall b : PicoButton,
      button_number_from_name b PyNone = PyBool false /\
      (button_match b PyNone = true <-> button_number b = 0)) /\
  exists br b, bridge self = Some br /\ In (id, b) (_button_subscribers br) /\
               dn = Some (name (pb_device b)) /\ button_number b = 0.
Proof.
  split.
  - intro b. split; [reflexivity|]. rewrite button_match_None. apply Z.eqb_eq.
  - unfold _device_id_from_name in H.
    destruct dn as [d|]; [|discriminate].
    destruct (str_truthy d); [|discriminate].
    destruct (bridge self) as [br|]; [|discriminate].
    destruct (find_button d PyNone (_button_subscribers br)) as [i|] eqn:Ef.
    + injection H as _ <-.
      destruct (find_button_sound _ _ _ _ Ef) as (b & Hin & Hn & Hm).
      exists br, b. repeat split; auto.
      * now rewrite Hn.
      * rewrite button_match_None in Hm. now apply Z.eqb_eq.
    + destruct (find_device d (_subscribers br)); discriminate.
Qed.

Lemma match_without_designator_witness :
  exists br b, bridge Home.caseta = Some br /\ In ("101", b) (_button_subscribers br) /\
               Some "living_room_remote" = Some (name (pb_device b)) /\ button_number b = 0.
Proof.
  exact (proj2 (match_without_designator Home.caseta (Some "living_room_remote") [] "101" eq_refl)).
Defined.

(** ** The resolver *)

Lemma index_from_end_2 {A} (pre : list A) (a b : A) :
  index_from_end (pre ++ [a; b]) 2 = Ok a.
Proof.
  unfold index_from_end. rewrite length_app. simpl.
  destruct (Nat.ltb_spec (List.length pre + 2) 2) as [Hlt|_]; [lia|].
  replace (List.length pre + 2 - 2)%nat with (List.length pre + 0)%nat by lia.
  rewrite nth_error_app2 by lia.
  replace (List.length pre + 0 - List.length pre)%nat with 0%nat by lia. reflexivity.
Qed.

Lemma index_from_end_1 {A} (pre : list A) (a b : A) :
  index_from_end (pre ++ [a; b]) 1 = Ok b.
Proof.
  unfold index_from_end. rewrite length_app. simpl.
  destruct (Nat.ltb_spec (List.length pre + 2) 1) as [Hlt|_]; [lia|].
  replace (List.length pre + 2 - 1)%nat with (List.length pre + 1)%nat by lia.
  rewrite nth_error_app2 by lia.
  replace (List.length pre + 1 - List.length pre)%nat with 1%nat by lia. reflexivity.
Qed.

Lemma target_device_name_ok (self : Caseta) (t : string) (command : option string)
    (pre : list string) (a b : string) :
  split_on "/" t = (pre ++ [a; b])%list ->
  target_device_name self t command =
    Ok (let d := if String.eqb a (_name self) then b else a in
        match command with
        | Some c => if String.eqb d c then None else Some d
        | None => Some d
        end).
Proof.
  intros H. unfold target_device_name. rewrite H, index_from_end_2. simpl.
  destruct (String.eqb a (_name self)).
  - rewrite index_from_end_1. simpl. destruct command; reflexivity.
  - simpl. destruct command; reflexivity.
Qed.

(** C8: on a topic that ends in the segments [a/b], the target device name
    is [a], unless [a] is the service's own name, in which case it is [b];
    and the target is absent when that value is the command name. *)
Theorem target_from_last_two_segments (self : Caseta) (t : string) (command : option string)
    (pre : list string) (a b : string)
    (H : split_on "/" t = (pre ++ [a; b])%list) :
  target_device_name self t command =
    Ok (let d := if String.eqb a (_name self) then b else a in
        match command with
        | Some c => if String.eqb d c then None else Some d
        | None => Some d
        end).
Proof. exact (target_device_name_ok self t command pre a b H). Qed.

Lemma target_from_last_two_segments_witness :
  target_device_name Home.caseta "status/lutron/caseta" (Some "status") = Ok (Some "lutron") /\
  target_device_name Home.caseta "lutron/caseta/status" (Some "status") = Ok None.
Proof.
  split.
  - exact (target_from_last_two_segments Home.caseta "status/lutron/caseta" (Some "status")
             ["status"] "lutron" "caseta" eq_refl).
  - exact (target_from_last_two_segments Home.caseta "lutron/caseta/status" (Some "status")
             ["lutron"] "caseta" "status" eq_refl).
Defined.

(** A topic of one segment has no second-to-last segment: IndexError. *)
Lemma target_of_single_segment :
  target_device_name Home.caseta "status" (Some "status") = Raise IndexError.
Proof. reflexivity. Qed.

(** What a successful resolution returns. *)
Lemma Caseta_get_command_ok (base : Caseta -> Msg -> M (option string * RawArgs))
    (self : Caseta) (msg : Msg) (log : list LogRecord) (command : option string)
    (final : list Arg) :
  Caseta_get_command base self msg = (log, Ok (command, final)) ->
  exists log0 raw dn n dev is_button,
    base self msg = (log0, Ok (command, raw)) /\
    target_device_name self (topic msg) command = Ok dn /\
    nparams_of self command (as_list raw) = Ok n /\
    snd (call_device_id_from_name self dn (as_list raw)) = Ok (dev, is_button) /\
    final = firstn n (assemble_args command (as_list raw) dev is_button
                                    (bridge_handle self command)).
Proof.
  unfold Caseta_get_command, mbind, lift, ret.
  destruct (base self msg) as [log0 [[c raw]|e]]; [|discriminate].
  destruct (target_device_name self (topic msg) c) as [dn|e] eqn:Et; [|discriminate].
  destruct (nparams_of self c (as_list raw)) as [n|e] eqn:En; [|discriminate].
  destruct (call_device_id_from_name self dn (as_list raw)) as [log1 [[dev isb]|e]] eqn:Ec;
    [|discriminate].
  intros [= _ <- <-].
  exists log0, raw, dn, n, dev, isb. rewrite Ec. auto.
Qed.

(** C7: when a command found in the dispatch table is resolved, the final
    argument list is the list the resolver has assembled for this message
    (from the raw args the base resolver returned and the result of the
    device lookup on them), cut to the callable's declared parameter count:
    it is no longer than that count, and the assembled list is the final
    list followed by the arguments that were dropped. *)
Theorem truncation_law (base : Caseta -> Msg -> M (option string * RawArgs))
    (self : Caseta) (msg : Msg) (log : list LogRecord) (c : string) (f : Callable)
    (final : list Arg)
    (Hc : str_truthy c = true)
    (Hf : assoc c (_method_dict self) = Some f)
    (H : Caseta_get_command base self msg = (log, Ok (Some c, final))) :
  exists log0 raw dn dev is_button,
    base self msg = (log0, Ok (Some c, raw)) /\
    target_device_name self (topic msg) (Some c) = Ok dn /\
    snd (call_device_id_from_name self dn (as_list raw)) = Ok (dev, is_button) /\
    let n := List.length (parameters f) in
    let assembled :=
      assemble_args (Some c) (as_list raw) dev is_button (bridge_handle self (Some c)) in
    final = firstn n assembled /\
    (List.length final <= n)%nat /\
    assembled = (final ++ skipn n assembled)%list.
Proof.
  destruct (Caseta_get_command_ok _ _ _ _ _ _ H)
    as (log0 & raw & dn & n & dev & isb & Hbase & Htarget & Hn & Hlookup & Hfin).
  unfold nparams_of in Hn. rewrite Hc, Hf in Hn. injection Hn as <-.
  exists log0, raw, dn, dev, isb.
  split; [exact Hbase|]. split; [exact Htarget|]. split; [exact Hlookup|].
  cbn zeta. split; [exact Hfin|]. split.
  - subst final. apply firstn_le_length.
  - subst final. symmetry. apply firstn_skipn.
Qed.

Lemma truncation_law_witness :
  exists log0 raw dn dev is_button,
    Home.hands_back (Some "set_value") (ArgList [PyInt 75]) Home.caseta
      {| topic := "lutron/command/kitchen_lights/set_value"; payload := "75" |}
      = (log0, Ok (Some "set_value", raw)) /\
    target_device_name Home.caseta "lutron/command/kitchen_lights/set_value" (Some "set_value")
      = Ok dn /\
    snd (call_device_id_from_name Home.caseta dn (as_list raw)) = Ok (dev, is_button) /\
    let n := List.length ["device_id"; "value"; "fade_time"] in
    let assembled :=
      assemble_args (Some "set_value") (as_list raw) dev is_button
                    (bridge_handle Home.caseta (Some "set_value")) in
    [AVal (PyStr "4"); AVal (PyInt 75)] = firstn n assembled /\
    (List.length [AVal (PyStr "4"); AVal (PyInt 75)] <= n)%nat /\
    assembled = ([AVal (PyStr "4"); AVal (PyInt 75)] ++ skipn n assembled)%list.
Proof.
  exact (truncation_law (Home.hands_back (Some "set_value") (ArgList [PyInt 75])) Home.caseta
           {| topic := "lutron/command/kitchen_lights/set_value"; payload := "75" |}
           [] "set_value" {| parameters := ["device_id"; "value"; "fade_time"] |}
           [AVal (PyStr "4"); AVal (PyInt 75)] eq_refl eq_refl eq_refl).
Defined.

(** The assembled list of a message is unique: the base result, the target
    and the lookup determine it. *)
Lemma assembled_unique (base : Caseta -> Msg -> M (option string * RawArgs))
    (self : Caseta) (msg : Msg) (c : string)
    (log1 log2 : list LogRecord) (raw1 raw2 : RawArgs) (dn1 dn2 : option string)
    (dev1 dev2 : option string) (b1 b2 : bool) :
  base self msg = (log1, Ok (Some c, raw1)) -> base self msg = (log2, Ok (Some c, raw2)) ->
  target_device_name self (topic msg) (Some c) = Ok dn1 ->
  target_device_name self (topic msg) (Some c) = Ok dn2 ->
  snd (call_device_id_from_name self dn1 (as_list raw1)) = Ok (dev1, b1) ->
  snd (call_device_id_from_name self dn2 (as_list raw2)) = Ok (dev2, b2) ->
  assemble_args (Some c) (as_list raw1) dev1 b1 (bridge_handle self (Some c)) =
  assemble_args (Some c) (as_list raw2) dev2 b2 (bridge_handle self (Some c)).
Proof.
  intros E1 E2 T1 T2 L1 L2. rewrite E1 in E2. injection E2 as _ <-.
  rewrite T1 in T2. injection T2 as <-. rewrite L1 in L2. injection L2 as <- <-.
  reflexivity.
Qed.

(** A message with an argument too many: the last one is dropped, the
    others keep their order. *)
Example truncation_keeps_order :
  Caseta_get_command (Home.hands_back (Some "refresh") (Scalar (PyInt 1))) Home.caseta
    {| topic := "lutron/command/kitchen_lights/refresh"; payload := "1" |}
  = ([], Ok (Some "refresh", [AVal (PyStr "4")])).
Proof. reflexivity. Qed.

(** Extra arguments are cut from the end. *)
Example truncation_drops_trailing :
  Caseta_get_command (Home.hands_back (Some "status") (Scalar (PyInt 1))) Home.caseta
    {| topic := "lutron/command/kitchen_lights/status"; payload := "1" |}
  = ([], Ok (Some "status", [])).
Proof. reflexivity. Qed.

(** The store *)

Lemma read_last (h : Store) (l : list Arg) : read (List.length h) (h ++ [l])%list = l.
Proof. unfold read. rewrite app_nth2 by lia. now rewrite Nat.sub_diag. Qed.

Lemma read_old (h ext : Store) (a : nat) :
  (a < List.length h)%nat -> read a (h ++ ext)%list = read a h.
Proof. intros H. unfold read. now apply app_nth1. Qed.

Lemma insert0_last (h : Store) (l : list Arg) (x : Arg) :
  insert0 (List.length h) x (h ++ [l])%list = (h ++ [x :: l])%list.
Proof.
  unfold insert0. induction h as [|c r IH]; simpl; [reflexivity|]. now rewrite IH.
Qed.

(** Lines 412-420 only add list objects: the store grows at its end, the
    list that is returned is a new one, and it holds the assembled list cut
    to [n]. *)
Lemma lines_412_420_spec (command : option string) (a : nat) (dev : option string)
    (is_button : bool) (br : option Smartbridge) (n : nat) (h : Store) :
  exists ext,
    snd (lines_412_420 command a dev is_button br n h) = (h ++ ext)%list /\
    (List.length h <= fst (lines_412_420 command a dev is_button br n h))%nat /\
    (fst (lines_412_420 command a dev is_button br n h) <
       List.length (snd (lines_412_420 command a dev is_button br n h)))%nat /\
    read (fst (lines_412_420 command a dev is_button br n h))
         (snd (lines_412_420 command a dev is_button br n h)) =
      firstn n (assemble_items command (read a h) dev is_button br).
Proof.
  unfold lines_412_420, assemble_items, alloc.
  set (c := comprehension command (read a h)).
  assert (Hone : forall l : list Arg,
            exists ext,
              snd (List.length (h ++ [l])%list, ((h ++ [l]) ++ [firstn n l])%list) = (h ++ ext)%list /\
              (List.length h <= fst (List.length (h ++ [l])%list, ((h ++ [l]) ++ [firstn n l])%list))%nat /\
              (fst (List.length (h ++ [l])%list, ((h ++ [l]) ++ [firstn n l])%list) <
                 List.length (snd (List.length (h ++ [l])%list,
                                   ((h ++ [l]) ++ [firstn n l])%list)))%nat /\
              read (fst (List.length (h ++ [l])%list, ((h ++ [l]) ++ [firstn n l])%list))
                   (snd (List.length (h ++ [l])%list, ((h ++ [l]) ++ [firstn n l])%list))
                = firstn n l).
  { intros l. exists [l; firstn n l]. cbn [fst snd]. repeat split.
    - now rewrite <- app_assoc.
    - rewrite length_app. lia.
    - rewrite !length_app. simpl. lia.
    - apply read_last. }
  assert (Htwo : forall l0 l : list Arg,
            exists ext,
              snd (List.length ((h ++ [l0]) ++ [l])%list,
                   (((h ++ [l0]) ++ [l]) ++ [firstn n l])%list) = (h ++ ext)%list /\
              (List.length h <= fst (List.length ((h ++ [l0]) ++ [l])%list,
                                     (((h ++ [l0]) ++ [l]) ++ [firstn n l])%list))%nat /\
              (fst (List.length ((h ++ [l0]) ++ [l])%list,
                    (((h ++ [l0]) ++ [l]) ++ [firstn n l])%list) <
                 List.length (snd (List.length ((h ++ [l0]) ++ [l])%list,
                                   (((h ++ [l0]) ++ [l]) ++ [firstn n l])%list)))%nat /\
              read (fst (List.length ((h ++ [l0]) ++ [l])%list,
                         (((h ++ [l0]) ++ [l]) ++ [firstn n l])%list))
                   (snd (List.length ((h ++ [l0]) ++ [l])%list,
                         (((h ++ [l0]) ++ [l]) ++ [firstn n l])%list))
                = firstn n l).
  { intros l0 l. exists [l0; l; firstn n l]. cbn [fst snd]. repeat split.
    - now rewrite <- !app_assoc.
    - rewrite !length_app. lia.
    - rewrite !length_app. simpl. lia.
    - apply read_last. }
  destruct dev as [id|]; [destruct (str_truthy id); [destruct is_button|]|];
    destruct br as [s|]; cbv beta iota zeta;
    rewrite ?insert0_last, ?read_last, ?insert0_last, ?read_last;
    first [apply Hone | apply Htwo].
Qed.

Lemma store_run_ok (self : Caseta) (tpc : string) (command : option string)
    (args : ArgsVar) (h : Store) (dn : option string) (n : nat)
    (log : list LogRecord) (dev : option string) (is_button : bool) :
  args_valid args h ->
  target_device_name self tpc command = Ok dn ->
  nparams_items self command (content args h) = Ok n ->
  call_lookup_items self dn (content args h) = (log, Ok (dev, is_button)) ->
  exists r ext,
    Caseta_get_command_store self tpc command args h
      = (log, Ok ((command, r), (h ++ ext)%list)) /\
    (List.length h <= r)%nat /\ (r < List.length (h ++ ext)%list)%nat /\
    read r (h ++ ext)%list =
      firstn n (assemble_items command (content args h) dev is_button
                               (bridge_handle self command)).
Proof.
  intros Hv Ht Hn Hl. unfold Caseta_get_command_store. rewrite Ht.
  destruct args as [v|a]; cbn [content args_valid] in *.
  - unfold alloc. rewrite read_last, Hn, Hl.
    destruct (lines_412_420_spec command (List.length h) dev is_button
                (bridge_handle self command) n (h ++ [[AVal v]])%list)
      as (ext & Hs & Hle & Hlt & Hr).
    destruct (lines_412_420 command (List.length h) dev is_button
                (bridge_handle self command) n (h ++ [[AVal v]])%list) as [r h5].
    cbn [fst snd] in *. subst h5. rewrite read_last in Hr.
    exists r, ([[AVal v]] ++ ext)%list. rewrite app_assoc.
    repeat split; auto. rewrite length_app in Hle. lia.
  - rewrite Hn, Hl.
    destruct (lines_412_420_spec command a dev is_button (bridge_handle self command) n h)
      as (ext & Hs & Hle & Hlt & Hr).
    destruct (lines_412_420 command a dev is_button (bridge_handle self command) n h)
      as [r h5].
    cbn [fst snd] in *. subst h5. exists r, ext. repeat split; auto.
Qed.

Lemma store_run_inv (self : Caseta) (tpc : string) (command cmd : option string)
    (args : ArgsVar) (h h1 : Store) (log : list LogRecord) (r : nat) :
  Caseta_get_command_store self tpc command args h = (log, Ok ((cmd, r), h1)) ->
  cmd = command /\
  exists dn n dev is_button,
    target_device_name self tpc command = Ok dn /\
    nparams_items self command (content args h) = Ok n /\
    call_lookup_items self dn (content args h) = (log, Ok (dev, is_button)).
Proof.
  unfold Caseta_get_command_store.
  destruct (target_device_name self tpc command) as [dn|e]; [|discriminate].
  assert (Hgen : forall a h0,
    read a h0 = content args h ->
    match nparams_items self command (read a h0) with
    | Ok n =>
        match call_lookup_items self dn (read a h0) with
        | (log0, Ok (dev, is_button)) =>
            let '(r0, h5) :=
              lines_412_420 command a dev is_button (bridge_handle self command) n h0 in
            (log0, Ok ((command, r0), h5))
        | (log0, Raise e) => (log0, Raise e)
        end
    | Raise e => ([], Raise e)
    end = (log, Ok ((cmd, r), h1)) ->
    cmd = command /\
    exists dn0 n dev is_button,
      Ok dn = Ok dn0 /\
      nparams_items self command (content args h) = Ok n /\
      call_lookup_items self dn0 (content args h) = (log, Ok (dev, is_button))).
  { intros a h0 Hc. rewrite Hc.
    destruct (nparams_items self command (content args h)) as [n|e] eqn:En; [|discriminate].
    destruct (call_lookup_items self dn (content args h)) as [log0 [[dev isb]|e]] eqn:El;
      [|discriminate].
    destruct (lines_412_420 command a dev isb (bridge_handle self command) n h0) as [r0 h5].
    intros [= <- <- <- <-]. split; [reflexivity|]. exists dn, n, dev, isb.
    split; [reflexivity|]. split; [reflexivity | exact El]. }
  destruct args as [v|a]; cbn [content].
  - unfold alloc. apply Hgen. apply read_last.
  - apply Hgen. reflexivity.
Qed.

(** C9: resolve a message, then resolve it again on the store the first
    resolution left, with the args the base resolver returns the second
    time holding the same items (the same list object or another one).
    The first resolution changes no list that existed before it, the list
    it returns is a new one, and the second resolution returns the same
    command and a final list with the same items, leaving the first result
    as it was. *)
Theorem resolution_repeatable (self : Caseta) (tpc : string) (command cmd : option string)
    (args args' : ArgsVar) (h h1 : Store) (log : list LogRecord) (r1 : nat)
    (Hvalid : args_valid args h)
    (H1 : Caseta_get_command_store self tpc command args h = (log, Ok ((cmd, r1), h1)))
    (Hvalid' : args_valid args' h1)
    (Hsame : content args' h1 = content args h) :
  cmd = command /\
  (forall a, (a < List.length h)%nat -> read a h1 = read a h) /\
  (List.length h <= r1 < List.length h1)%nat /\
  exists r2 h2,
    Caseta_get_command_store self tpc command args' h1 = (log, Ok ((cmd, r2), h2)) /\
    read r2 h2 = read r1 h1 /\
    (forall a, (a < List.length h1)%nat -> read a h2 = read a h1).
Proof.
  destruct (store_run_inv _ _ _ _ _ _ _ _ _ H1) as (-> & dn & n & dev & isb & Ht & Hn & Hl).
  destruct (store_run_ok self tpc command args h dn n log dev isb Hvalid Ht Hn Hl)
    as (r & ext & Hrun & Hle & Hlt & Hr).
  rewrite Hrun in H1. injection H1 as -> <-.
  split; [reflexivity|]. split; [intros a Ha; now apply read_old|]. split; [lia|].
  rewrite <- Hsame in Hn, Hl, Hr.
  destruct (store_run_ok self tpc command args' (h ++ ext)%list dn n log dev isb
              Hvalid' Ht Hn Hl) as (r2 & ext2 & Hrun2 & _ & _ & Hr2).
  exists r2, ((h ++ ext) ++ ext2)%list. split; [exact Hrun2|]. split.
  - now rewrite Hr2, Hr.
  - intros a Ha. now apply read_old.
Qed.

Lemma resolution_repeatable_witness :
  exists r2 h2,
    Caseta_get_command_store Home.caseta "lutron/command/kitchen_lights/set_value"
      (Some "set_value") (ListAt 0)
      [[AVal (PyInt 75)]; [AVal (PyStr "4"); AVal (PyInt 75)];
       [AVal (PyStr "4"); AVal (PyInt 75)]]
      = ([], Ok ((Some "set_value", r2), h2)) /\
    read r2 h2 = [AVal (PyStr "4"); AVal (PyInt 75)].
Proof.
  destruct (resolution_repeatable Home.caseta "lutron/command/kitchen_lights/set_value"
              (Some "set_value") (Some "set_value") (ListAt 0) (ListAt 0)
              [[AVal (PyInt 75)]]
              [[AVal (PyInt 75)]; [AVal (PyStr "4"); AVal (PyInt 75)];
               [AVal (PyStr "4"); AVal (PyInt 75)]]
              [] 2 (Nat.lt_0_succ 0) eq_refl (Nat.lt_0_succ 2) eq_refl)
    as (_ & _ & _ & r2 & h2 & Hrun & Hread & _).
  exists r2, h2. split; [exact Hrun | exact Hread].
Defined.

(** The store run returns what the resolver returns on the items as a
    value: for a list of values the two agree. *)
Lemma assemble_items_values (command : option string) (raw : list PyVal)
    (dev : option string) (is_button : bool) (br : option Smartbridge) :
  assemble_items command (map AVal raw) dev is_button br =
  assemble_args command raw dev is_button br.
Proof.
  unfold assemble_items, assemble_args, comprehension.
  assert (E : map (fun a => if opt_string_eqb command (Some "activate_scene")
                            then arg_str a else a)
                  (filter (fun a => negb (arg_is_none a)) (map AVal raw)) =
              map (fun a => AVal (if opt_string_eqb command (Some "activate_scene")
                                  then PyStr (py_str a) else a))
                  (filter (fun a => negb (is_none a)) raw)).
  { induction raw as [|v r IH]; [reflexivity|]. cbn [map filter].
    change (arg_is_none (AVal v)) with (is_none v).
    destruct (is_none v); cbn [negb]; [exact IH|]. cbn [map]. rewrite IH. f_equal.
    destruct (opt_string_eqb command (Some "activate_scene")); reflexivity. }
  now rewrite E.
Qed.

Lemma call_lookup_items_values (self : Caseta) (dn : option string) (raw : list PyVal) :
  call_lookup_items self dn (map AVal raw) = call_device_id_from_name self dn raw.
Proof. destruct raw as [|x [|y r]]; reflexivity. Qed.

Lemma nparams_items_values (self : Caseta) (command : option string) (raw : list PyVal) :
  nparams_items self command (map AVal raw) = nparams_of self command raw.
Proof. unfold nparams_items, nparams_of. now rewrite length_map. Qed.

(** On a list of values the store run and the resolver agree: the final
    list in the store holds the final arguments the resolver returns. *)
Lemma store_run_refines (self : Caseta) (msg : Msg) (command cmd : option string)
    (a r : nat) (h h1 : Store) (raw : list PyVal) (log : list LogRecord) :
  (a < List.length h)%nat -> read a h = map AVal raw ->
  Caseta_get_command_store self (topic msg) command (ListAt a) h
    = (log, Ok ((cmd, r), h1)) ->
  Caseta_get_command (fun _ _ => ret (command, ArgList raw)) self msg
    = (log, Ok (cmd, read r h1)).
Proof.
  intros Ha Hraw H.
  destruct (store_run_inv _ _ _ _ _ _ _ _ _ H) as (-> & dn & n & dev & isb & Ht & Hn & Hl).
  destruct (store_run_ok self (topic msg) command (ListAt a) h dn n log dev isb Ha Ht Hn Hl)
    as (r' & ext & Hrun & _ & _ & Hr).
  rewrite Hrun in H. injection H as -> <-. rewrite Hr.
  cbn [content] in *. rewrite Hraw in *.
  rewrite nparams_items_values in Hn. rewrite call_lookup_items_values in Hl.
  rewrite assemble_items_values.
  unfold Caseta_get_command, mbind, lift, ret. rewrite Ht. cbn [as_list]. rewrite Hn, Hl.
  cbn [app]. now rewrite app_nil_r.
Qed.

(** C3: with two raw arguments the resolution raises: all of them are passed
    on to the device lookup, which takes a single designator. *)
Theorem two_raw_args_raise :
  Caseta_get_command (Home.hands_back (Some "set_value") (ArgList [PyInt 75; PyInt 2]))
    Home.caseta {| topic := "lutron/command/kitchen_lights/set_value"; payload := "[75, 2]" |}
  = ([], Raise TypeError).
Proof. reflexivity. Qed.

(** The same for any message: two or more raw arguments never get past the
    device lookup. *)
Lemma many_raw_args_raise (base : Caseta -> Msg -> M (option string * RawArgs))
    (self : Caseta) (msg : Msg) (log : list LogRecord) (command : option string)
    (a b : PyVal) (rest : list PyVal) :
  base self msg = (log, Ok (command, ArgList (a :: b :: rest))) ->
  forall r, snd (Caseta_get_command base self msg) <> Ok r.
Proof.
  intros Hb r. unfold Caseta_get_command, mbind, lift. rewrite Hb.
  destruct (target_device_name self (topic msg) command); simpl; [|discriminate].
  destruct (nparams_of self command (a :: b :: rest)); simpl; discriminate.
Qed.

(** With at most one raw argument and a connected bridge the lookup itself
    never raises, and a name that matches nothing gives (None, False) and a
    warning. *)
Lemma lookup_of_unknown_name (self : Caseta) (br : Smartbridge) (dn : string) (v : PyVal) :
  bridge self = Some br -> str_truthy dn = true ->
  find_button dn v (_button_subscribers br) = None ->
  find_device dn (_subscribers br) = None ->
  _device_id_from_name self (Some dn) v =
    ([Warning ("Device: " ++ dn ++ " NOT FOUND")], Ok (None, false)).
Proof.
  intros Hb Ht Hfb Hfd. unfold _device_id_from_name. rewrite Ht, Hb, Hfb, Hfd. reflexivity.
Qed.

(** C2: a message whose command name is not in the dispatch table is
    dropped: the handler logs one warning, invokes nothing, and no exception
    escapes. *)
Theorem unknown_command_dropped (default_command : string) (decode : string -> RawArgs)
    (self : Caseta) (msg : Msg)
    (H : assoc (command_name default_command msg) (_method_dict self) = None) :
  snd (Caseta_get_command (MQTT_get_command default_command decode) self msg)
    = Raise (UnknownCommand (command_name default_command msg)) /\
  exists text, on_message default_command decode self msg = ([Warning text], Dropped).
Proof.
  assert (E : Caseta_get_command (MQTT_get_command default_command decode) self msg
              = ([], Raise (UnknownCommand (command_name default_command msg)))).
  { unfold Caseta_get_command, MQTT_get_command. rewrite H. reflexivity. }
  split.
  - rewrite E. reflexivity.
  - unfold on_message. rewrite E. eexists. reflexivity.
Qed.

Lemma unknown_command_dropped_witness :
  exists text,
    on_message "set_value" (fun p => Scalar (PyStr p)) Home.caseta
      {| topic := "frobnicate/lutron/x"; payload := "" |} = ([Warning text], Dropped).
Proof.
  exact (proj2 (unknown_command_dropped "set_value" (fun p => Scalar (PyStr p)) Home.caseta
                  {| topic := "frobnicate/lutron/x"; payload := "" |} eq_refl)).
Defined.

(** On the source alone: a command name that reaches line 409 and is not in
    the table raises KeyError there, and with no command the table is not
    consulted. *)
Lemma nparams_of_unknown (self : Caseta) (c : string) (args : list PyVal) :
  str_truthy c = true -> assoc c (_method_dict self) = None ->
  nparams_of self (Some c) args = Raise (KeyError c).
Proof. intros Ht Ha. unfold nparams_of. rewrite Ht, Ha. reflexivity. Qed.

Lemma nparams_of_no_command (self : Caseta) (args : list PyVal) :
  nparams_of self None args = Ok (List.length args).
Proof. reflexivity. Qed.

Lemma lookup_total (self : Caseta) (br : Smartbridge) (dn : option string) (v : PyVal) :
  bridge self = Some br ->
  exists log r, _device_id_from_name self dn v = (log, Ok r).
Proof.
  intros Hb. unfold _device_id_from_name. rewrite Hb.
  destruct dn as [d|]; [|repeat eexists; reflexivity].
  destruct (str_truthy d); [|repeat eexists; reflexivity].
  destruct (find_button d v (_button_subscribers br)); [repeat eexists; reflexivity|].
  destruct (find_device d (_subscribers br)); repeat eexists; reflexivity.
Qed.

(** If the base resolver reports an unknown command by handing back no
    command and no args, the resolver returns without a command: on a topic
    of two or more segments and a connected bridge nothing is raised. *)
Lemma no_command_resolves (base : Caseta -> Msg -> M (option string * RawArgs))
    (self : Caseta) (msg : Msg) (br : Smartbridge) (log : list LogRecord)
    (pre : list string) (a b : string) :
  base self msg = (log, Ok (None, Scalar PyNone)) ->
  split_on "/" (topic msg) = (pre ++ [a; b])%list ->
  bridge self = Some br ->
  exists log' args, Caseta_get_command base self msg = (log', Ok (None, args)).
Proof.
  intros Hbase Hsplit Hbr. unfold Caseta_get_command, mbind, lift. rewrite Hbase.
  rewrite (target_device_name_ok self (topic msg) None pre a b Hsplit).
  cbn [as_list nparams_of call_device_id_from_name].
  destruct (lookup_total self br
              (Some (if String.eqb a (_name self) then b else a)) PyNone Hbr)
    as (l & [dev isb] & E).
  cbn zeta. rewrite E. repeat eexists; reflexivity.
Qed.

(** ** Long-press timers *)

Lemma nth_error_update_nth {A} (f : A -> A) (i j : nat) (l : list A) :
  nth_error (update_nth f i l) j =
    if Nat.eqb j i then option_map f (nth_error l j) else nth_error l j.
Proof.
  revert i j. induction l as [|x r IH]; intros i j.
  - destruct i, j; simpl; try reflexivity. destruct (Nat.eqb j i); reflexivity.
  - destruct i, j; simpl; try reflexivity. apply IH.
Qed.

Lemma nth_error_cancel (i j : nat) (hs : list TimerHandle) (h : TimerHandle) :
  nth_error (cancel i hs) j = Some h -> is_pending h = true ->
  j <> i /\ nth_error hs j = Some h.
Proof.
  unfold cancel. rewrite nth_error_update_nth.
  destruct (Nat.eqb_spec j i) as [->|Hne].
  - destruct (nth_error hs i); simpl; [|discriminate].
    intros [= <-]. unfold is_pending. simpl. discriminate.
  - auto.
Qed.

Lemma nth_error_mark_ran (i j : nat) (hs : list TimerHandle) (h : TimerHandle) :
  nth_error (mark_ran i hs) j = Some h -> is_pending h = true ->
  j <> i /\ nth_error hs j = Some h.
Proof.
  unfold mark_ran. rewrite nth_error_update_nth.
  destruct (Nat.eqb_spec j i) as [->|Hne].
  - destruct (nth_error hs i); simpl; [|discriminate].
    intros [= <-]. unfold is_pending. simpl. rewrite andb_false_r. discriminate.
  - auto.
Qed.

(** After [long_press], with its result stored as the button's task, every
    armed timer is still the one the button holds. *)
Lemma long_press_tracked (now : Q) (w : World) :
  tracked w ->
  let '(_, task, hs) := long_press now w in
  tracked {| button := with_task (button w) task; handles := hs |}.
Proof.
  intros Ht. unfold long_press, tracked in *.
  destruct (PicoButton_bool (button w)); destruct (_long_press_task (button w)) as [t|] eqn:Et.
  - simpl. intros j h Hn Hp. apply nth_error_cancel in Hn as [Hne Hn]; auto.
    specialize (Ht _ _ Hn Hp). congruence.
  - simpl. intros j h Hn Hp.
    destruct (Nat.lt_ge_cases j (List.length (handles w))) as [Hlt|Hge].
    + rewrite nth_error_app1 in Hn by exact Hlt. specialize (Ht _ _ Hn Hp). discriminate.
    + rewrite nth_error_app2 in Hn by exact Hge.
      destruct (j - List.length (handles w))%nat as [|k] eqn:Ek.
      * f_equal. lia.
      * simpl in Hn. destruct k; discriminate.
  - destruct (negb (cancelled t (handles w))); simpl; intros j h Hn Hp;
      apply nth_error_cancel in Hn as [Hne Hn]; auto;
      specialize (Ht _ _ Hn Hp); congruence.
  - simpl. intros j h Hn Hp. specialize (Ht _ _ Hn Hp). discriminate.
Qed.

Lemma receive_task (b : PicoButton) (msg : PyVal) :
  _long_press_task (receive b msg) = _long_press_task b.
Proof.
  unfold receive. destruct msg; try reflexivity;
    destruct (negb (py_eq (current_state (pb_device b)) _)); reflexivity.
Qed.

Lemma timing_tracked (now : Q) (w : World) : tracked w -> tracked (snd (timing now w)).
Proof.
  intros Ht. unfold timing.
  destruct (PicoButton_bool (button w)).
  - pose proof (long_press_tracked now
                  {| button := with_start (button w) now; handles := handles w |}) as Hl.
    destruct (long_press now _) as [[ev2 task] hs]. simpl. apply Hl. exact Ht.
  - pose proof (long_press_tracked now {| button := button w; handles := handles w |}) as Hl.
    destruct (long_press now _) as [[ev2 task] hs]. simpl. apply Hl. exact Ht.
Qed.

Lemma PicoButton_call_tracked (msg : PyVal) (now : Q) (w : World) :
  tracked w -> tracked (snd (PicoButton_call msg now w)).
Proof.
  intros Ht. unfold PicoButton_call.
  pose proof (timing_tracked now {| button := receive (button w) msg; handles := handles w |})
    as Hl.
  destruct (timing now _) as [ev w']. simpl in *. apply Hl.
  unfold tracked in *. simpl. rewrite receive_task. exact Ht.
Qed.

Lemma run_handle_tracked (i : nat) (h : TimerHandle) (now : Q) (w : World) :
  nth_error (handles w) i = Some h -> is_pending h = true ->
  tracked w -> tracked (snd (run_handle i now w)).
Proof.
  intros Hn Hp Ht.
  assert (Etask : _long_press_task (button w) = Some i) by exact (Ht _ _ Hn Hp).
  unfold run_handle, long_press. simpl. rewrite Etask.
  assert (Hc : cancelled i (mark_ran i (handles w)) = false).
  { unfold cancelled, mark_ran. rewrite nth_error_update_nth, Nat.eqb_refl, Hn. simpl.
    unfold is_pending in Hp. apply andb_prop in Hp as [Hp _].
    now apply negb_true_iff in Hp. }
  assert (Hgoal : tracked {| button := button w; handles := cancel i (mark_ran i (handles w)) |}).
  { unfold tracked. simpl. intros j h' Hn' Hp'.
    apply nth_error_cancel in Hn' as [Hne Hn']; auto.
    apply nth_error_mark_ran in Hn' as [_ Hn']; auto.
    exact (Ht _ _ Hn' Hp'). }
  destruct (PicoButton_bool (button w)); simpl; [exact Hgoal|].
  rewrite Hc. simpl. exact Hgoal.
Qed.

Lemma step_tracked (w w' : World) : step w w' -> tracked w -> tracked w'.
Proof.
  intros Hs Ht. destruct Hs.
  - now apply PicoButton_call_tracked.
  - eapply run_handle_tracked; eauto.
Qed.

Lemma initial_tracked (w : World) : initial w -> tracked w.
Proof.
  intros [_ Hh] i h Hn. rewrite Hh in Hn. destruct i; discriminate.
Qed.

Lemma steps_tracked (w w' : World) : steps w w' -> tracked w -> tracked w'.
Proof.
  induction 1; intros Ht; [assumption|]. eapply step_tracked; eauto.
Qed.

Lemma filter_none {A} (p : A -> bool) (l : list A) :
  (forall x, In x l -> p x = false) -> filter p l = [].
Proof.
  induction l as [|a r IH]; intros H; simpl; [reflexivity|].
  rewrite (H a (or_introl eq_refl)). apply IH. intros x Hx. apply H. now right.
Qed.

(** When all armed entries of a list sit at one position, there is at most
    one of them. *)
Lemma filter_at_most_one {A} (p : A -> bool) (l : list A) :
  (forall i j x y, nth_error l i = Some x -> nth_error l j = Some y ->
                   p x = true -> p y = true -> i = j) ->
  (List.length (filter p l) <= 1)%nat.
Proof.
  induction l as [|a r IH]; intros Huniq; simpl; [lia|].
  destruct (p a) eqn:Ea.
  - assert (Hr : filter p r = []).
    { apply filter_none. intros y Hy.
      destruct (In_nth_error _ _ Hy) as [j Hj].
      destruct (p y) eqn:Ey; [|reflexivity].
      specialize (Huniq 0%nat (S j) a y eq_refl Hj Ea Ey). discriminate. }
    rewrite Hr. simpl. lia.
  - apply IH. intros i j x y Hi Hj Hx Hy.
    specialize (Huniq (S i) (S j) x y Hi Hj Hx Hy). lia.
Qed.

Lemma tracked_at_most_one (w : World) : tracked w -> (pending_count w <= 1)%nat.
Proof.
  intros Ht. unfold pending_count. apply filter_at_most_one.
  intros i j x y Hi Hj Hx Hy.
  pose proof (Ht _ _ Hi Hx) as E1. pose proof (Ht _ _ Hj Hy) as E2. congruence.
Qed.

(** C6: starting from a freshly built button, after any sequence of
    notifications and timer firings at most one long-press timer is armed. *)
Theorem at_most_one_pending_timer (w0 w : World) (Hinit : initial w0) (Hrun : steps w0 w) :
  (pending_count w <= 1)%nat.
Proof.
  apply tracked_at_most_one. eapply steps_tracked; eauto. now apply initial_tracked.
Qed.

Lemma at_most_one_pending_timer_witness :
  (pending_count (snd (PicoButton_call Press 0 Home.world)) <= 1)%nat.
Proof.
  apply (at_most_one_pending_timer Home.world).
  - split; reflexivity.
  - eapply steps_next; [apply steps_refl | apply step_notify].
Defined.

(** ** Events of a notification *)

Arguments state_topic : simpl never.
Arguments double_topic : simpl never.
Arguments long_topic : simpl never.
Arguments Qle_bool : simpl never.
Arguments Qplus : simpl never.
Arguments Qminus : simpl never.
Arguments receive : simpl never.

Lemma length_append (s t : string) :
  String.length (s ++ t) = (String.length s + String.length t)%nat.
Proof. induction s as [|c s IH]; simpl; [reflexivity|]. now rewrite IH. Qed.

Lemma append_neq_self (s t : string) : t <> "" -> s ++ t <> s.
Proof.
  intros Ht E. apply (f_equal String.length) in E. rewrite length_append in E.
  destruct t; [congruence|]. simpl in E. lia.
Qed.

Lemma double_not_state (b : PicoButton) : double_topic b <> state_topic b.
Proof. unfold double_topic. apply append_neq_self. discriminate. Qed.

Lemma long_not_state (b : PicoButton) : long_topic b <> state_topic b.
Proof. unfold long_topic. apply append_neq_self. discriminate. Qed.

Lemma double_not_long (b : PicoButton) : double_topic b <> long_topic b.
Proof.
  unfold double_topic, long_topic. intros E.
  apply (f_equal String.length) in E. rewrite !length_append in E. simpl in E. lia.
Qed.

Lemma same_button_topics (b b' : PicoButton) :
  same_button b b' ->
  state_topic b' = state_topic b /\ double_topic b' = double_topic b /\
  long_topic b' = long_topic b /\ pb_parent b' = pb_parent b.
Proof.
  intros [Hs Hp]. unfold double_topic, long_topic. rewrite Hs. auto.
Qed.

Lemma receive_same (b : PicoButton) (msg : PyVal) :
  same_button b (receive b msg) /\ start (receive b msg) = start b.
Proof.
  unfold receive, same_button.
  destruct msg; try (repeat split; reflexivity);
    destruct (negb (py_eq (current_state (pb_device b)) _)); repeat split; reflexivity.
Qed.

Lemma receive_Press (b : PicoButton) : PicoButton_bool (receive b Press) = true.
Proof.
  unfold receive, Press, PicoButton_bool.
  destruct (current_state (pb_device b)) as [| x | n | s] eqn:E; simpl; try reflexivity.
  destruct (String.eqb s "Press") eqn:Es; simpl; [|reflexivity].
  rewrite E. exact Es.
Qed.

Lemma receive_Release (b : PicoButton) : PicoButton_bool (receive b Release) = false.
Proof.
  unfold receive, Release, PicoButton_bool.
  destruct (current_state (pb_device b)) as [| x | n | s] eqn:E; simpl; try reflexivity.
  destruct (String.eqb s "Release") eqn:Es; simpl; [|reflexivity].
  rewrite E. apply String.eqb_eq in Es. subst s. reflexivity.
Qed.

Lemma long_press_events (now : Q) (w : World) :
  on_long (button w) (fst (fst (long_press now w))).
Proof.
  unfold long_press, publish, on_long.
  destruct (PicoButton_bool (button w)); destruct (_long_press_task (button w)) as [i|];
    try destruct (negb (cancelled i (handles w)));
    destruct (pb_parent (button w)); simpl; repeat constructor.
Qed.

Lemma run_handle_button (i : nat) (now : Q) (w : World) :
  button (snd (run_handle i now w)) = button w.
Proof. unfold run_handle. destruct (long_press now _) as [[ev t] hs]. reflexivity. Qed.

Lemma run_handle_events (i : nat) (now : Q) (w : World) :
  on_long (button w) (fst (run_handle i now w)).
Proof.
  unfold run_handle.
  pose proof (long_press_events now {| button := button w; handles := mark_ran i (handles w) |})
    as H.
  destruct (long_press now _) as [[ev t] hs]. exact H.
Qed.

Lemma run_due_from_keeps (ids : list nat) (now : Q) (w : World) :
  button (snd (run_due_from ids now w)) = button w /\
  on_long (button w) (fst (run_due_from ids now w)).
Proof.
  revert w. induction ids as [|i r IH]; intros w; simpl.
  - split; [reflexivity | constructor].
  - destruct (nth_error (handles w) i) as [h|]; [|apply IH].
    destruct (is_due now h); [|apply IH].
    pose proof (run_handle_button i now w) as Hb.
    pose proof (run_handle_events i now w) as He.
    destruct (run_handle i now w) as [ev w1]. simpl in Hb, He.
    destruct (IH w1) as [Hb' He'].
    destruct (run_due_from r now w1) as [ev' w2]. simpl in *.
    split; [congruence|].
    unfold on_long in *. apply Forall_app. split; [exact He|].
    rewrite <- Hb. exact He'.
Qed.

Lemma run_due_keeps (now : Q) (w : World) :
  button (snd (run_due now w)) = button w /\ on_long (button w) (fst (run_due now w)).
Proof. apply run_due_from_keeps. Qed.

(** The events of [__call__(msg)]: the state, a double click when the
    button is pressed within the window, then what [long_press] publishes. *)
Lemma PicoButton_call_events (msg : PyVal) (now : Q) (w : World) :
  let b1 := receive (button w) msg in
  exists ev_long,
    on_long (button w) ev_long /\
    fst (PicoButton_call msg now w) =
      (publish b1 (state_topic b1) (PicoButton_str b1) ++
       (if PicoButton_bool b1 then
          if Qle_bool (now - start (button w)) double_click_time
          then publish b1 (double_topic b1) (PicoButton_str b1) else []
        else []) ++ ev_long)%list /\
    same_button (button w) (button (snd (PicoButton_call msg now w))) /\
    start (button (snd (PicoButton_call msg now w))) =
      (if PicoButton_bool b1 then now else start (button w)).
Proof.
  intros b1. unfold PicoButton_call, timing. fold b1. simpl.
  destruct (receive_same (button w) msg) as [Hsame Hstart]. fold b1 in Hsame, Hstart.
  destruct (same_button_topics _ _ Hsame) as (Hst & Hdt & Hlt & Hpar).
  destruct (PicoButton_bool b1) eqn:Eb.
  - pose proof (long_press_events now {| button := with_start b1 now; handles := handles w |})
      as Hl.
    destruct (long_press now _) as [[ev2 task] hs]. simpl in *.
    exists ev2. rewrite Hstart. repeat split.
    + unfold on_long in *. rewrite <- Hlt. exact Hl.
    + exact Hst.
    + exact Hpar.
  - pose proof (long_press_events now {| button := b1; handles := handles w |}) as Hl.
    destruct (long_press now _) as [[ev2 task] hs]. simpl in *.
    exists ev2. repeat split.
    + unfold on_long in *. rewrite <- Hlt. exact Hl.
    + exact Hst.
    + exact Hpar.
    + exact Hstart.
Qed.

Lemma deliver_keeps (now : Q) (msg : PyVal) (w : World) :
  same_button (button w) (button (snd (deliver now msg w))) /\
  start (button (snd (deliver now msg w))) =
    (if PicoButton_bool (receive (button w) msg) then now else start (button w)).
Proof.
  unfold deliver.
  destruct (run_due_keeps now w) as [Hb _].
  destruct (run_due now w) as [ev1 w1]. simpl in Hb.
  destruct (PicoButton_call_events msg now w1) as (ev & _ & _ & Hs & Hst).
  destruct (PicoButton_call msg now w1) as [ev2 w2]. simpl in *.
  rewrite Hb in *. auto.
Qed.

Lemma releases_keep (rs : list Q) (w : World) :
  let w' := snd (run_trace (map (fun t => (t, Release)) rs) w) in
  same_button (button w) (button w') /\ start (button w') = start (button w).
Proof.
  revert w. induction rs as [|t r IH]; intros w; simpl.
  - split; [split; reflexivity | reflexivity].
  - destruct (deliver_keeps t Release w) as [[Hs Hp] Hst].
    rewrite receive_Release in Hst.
    destruct (deliver t Release w) as [ev w1]. simpl in *.
    destruct (IH w1) as [[Hs' Hp'] Hst'].
    destruct (run_trace _ w1) as [ev' w2]. simpl in *.
    unfold same_button. repeat split; congruence.
Qed.

(** The events of a press notification. *)
Lemma deliver_Press_events (now : Q) (w : World) (p : Parent) :
  pb_parent (button w) = Some p ->
  exists ev_due ev_long,
    on_long (button w) ev_due /\ on_long (button w) ev_long /\
    fst (deliver now Press w) =
      (ev_due ++ [(state_topic (button w), "ON")] ++
       (if Qle_bool (now - start (button w)) double_click_time
        then [(double_topic (button w), "ON")] else []) ++ ev_long)%list.
Proof.
  intros Hp. unfold deliver.
  destruct (run_due_keeps now w) as [Hb Hev].
  destruct (run_due now w) as [ev1 w1]. simpl in Hb, Hev.
  destruct (PicoButton_call_events Press now w1) as (ev & Hl & He & _ & _).
  destruct (PicoButton_call Press now w1) as [ev2 w2]. simpl in *.
  rewrite Hb in *.
  destruct (receive_same (button w) Press) as [Hsame _].
  destruct (same_button_topics _ _ Hsame) as (Hst & Hdt & _ & Hpar).
  rewrite receive_Press in He. unfold publish, PicoButton_str in He.
  rewrite receive_Press, Hpar, Hp, Hst, Hdt in He.
  exists ev1, ev. repeat split; auto.
  rewrite He. destruct (Qle_bool _ _); reflexivity.
Qed.

(** C4: take a press at [t1], any number of release notifications, and the
    next press at [t2].  The second press emits a double-click event exactly
    when [t2 - t1 <= 0.5], the bound included. *)
Theorem double_click_window (w : World) (p : Parent) (t1 t2 : Q) (releases : list Q)
    (Hp : pb_parent (button w) = Some p) :
  let w1 := snd (deliver t1 Press w) in
  let w2 := snd (run_trace (map (fun t => (t, Release)) releases) w1) in
  In (double_topic (button w), "ON") (fst (deliver t2 Press w2)) <-> (t2 - t1 <= 1 # 2)%Q.
Proof.
  intros w1 w2.
  destruct (deliver_keeps t1 Press w) as [Hs1 Hst1]. rewrite receive_Press in Hst1.
  fold w1 in Hs1, Hst1.
  destruct (releases_keep releases w1) as [Hs2 Hst2]. fold w2 in Hs2, Hst2.
  destruct (same_button_topics _ _ Hs1) as (Ha1 & Hb1 & Hc1 & Hd1).
  destruct (same_button_topics _ _ Hs2) as (Ha2 & Hb2 & Hc2 & Hd2).
  assert (Hp2 : pb_parent (button w2) = Some p) by congruence.
  destruct (deliver_Press_events t2 w2 p Hp2) as (ev_due & ev_long & Hdue & Hlong & He).
  rewrite He, Hst2, Hst1, Ha2, Ha1, Hb2, Hb1.
  unfold on_long in Hdue, Hlong. rewrite Hc2, Hc1 in Hdue, Hlong.
  rewrite Forall_forall in Hdue, Hlong.
  rewrite <- Qle_bool_iff. change (1 # 2) with double_click_time.
  rewrite !in_app_iff. split.
  - intros [H | [H | [H | H]]].
    + apply Hdue in H. simpl in H. now apply double_not_long in H.
    + destruct H as [H|[]]. injection H as H. symmetry in H. now apply double_not_state in H.
    + destruct (Qle_bool (t2 - t1) double_click_time); [reflexivity | destruct H].
    + apply Hlong in H. simpl in H. now apply double_not_long in H.
  - intros H. right. right. left. rewrite H. now left.
Qed.

Lemma double_click_window_witness :
  In (double_topic (button Home.world), "ON")
     (fst (deliver (1 # 2) Press
             (snd (run_trace (map (fun t => (t, Release)) [3 # 10])
                     (snd (deliver 0 Press Home.world)))))).
Proof.
  apply (double_click_window Home.world Home.facade 0 (1 # 2) [3 # 10] eq_refl).
  unfold Qle. simpl. lia.
Defined.

(** ** Long presses *)

Arguments long_press : simpl never.
Arguments PicoButton_bool : simpl never.

Lemma update_nth_last {A} (f : A -> A) (hs : list A) (x : A) :
  update_nth f (List.length hs) (hs ++ [x])%list = (hs ++ [f x])%list.
Proof. induction hs as [|a r IH]; simpl; [reflexivity|]. now rewrite IH. Qed.

Lemma nth_error_last {A} (hs : list A) (x : A) :
  nth_error (hs ++ [x])%list (List.length hs) = Some x.
Proof. rewrite nth_error_app2 by lia. now rewrite Nat.sub_diag. Qed.

Lemma run_due_from_idle (ids : list nat) (now : Q) (w : World) :
  (forall i h, In i ids -> nth_error (handles w) i = Some h -> is_due now h = false) ->
  run_due_from ids now w = ([], w).
Proof.
  induction ids as [|i r IH]; intros H; simpl; [reflexivity|].
  destruct (nth_error (handles w) i) as [h|] eqn:E.
  - rewrite (H i h (or_introl eq_refl) E). apply IH. intros j h' Hj. apply H. now right.
  - apply IH. intros j h' Hj. apply H. now right.
Qed.

Lemma not_pending_not_due (now : Q) (h : TimerHandle) :
  is_pending h = false -> is_due now h = false.
Proof. intros H. unfold is_due. now rewrite H. Qed.

Lemma run_due_quiescent (now : Q) (w : World) :
  Forall (fun h => is_pending h = false) (handles w) -> run_due now w = ([], w).
Proof.
  intros H. apply run_due_from_idle. intros i h _ Hn.
  apply not_pending_not_due. rewrite Forall_forall in H. apply H.
  eapply nth_error_In; eauto.
Qed.

Lemma run_due_from_app (l1 l2 : list nat) (now : Q) (w : World) :
  run_due_from (l1 ++ l2) now w =
    let '(e1, w1) := run_due_from l1 now w in
    let '(e2, w2) := run_due_from l2 now w1 in
    ((e1 ++ e2)%list, w2).
Proof.
  revert w. induction l1 as [|i r IH]; intros w; simpl.
  - destruct (run_due_from l2 now w). reflexivity.
  - destruct (nth_error (handles w) i) as [h|]; [|apply IH].
    destruct (is_due now h); [|apply IH].
    destruct (run_handle i now w) as [ev w1]. rewrite IH.
    destruct (run_due_from r now w1) as [e1 w2].
    destruct (run_due_from l2 now w2) as [e2 w3]. now rewrite app_assoc.
Qed.

Lemma PicoButton_str_pressed (b : PicoButton) :
  PicoButton_bool b = true -> PicoButton_str b = "ON".
Proof. intros H. unfold PicoButton_str. now rewrite H. Qed.

Lemma PicoButton_str_released (b : PicoButton) :
  PicoButton_bool b = false -> PicoButton_str b = "OFF".
Proof. intros H. unfold PicoButton_str. now rewrite H. Qed.

Lemma Forall_idle_app (hs : list TimerHandle) (h : TimerHandle) :
  Forall (fun h => is_pending h = false) hs -> is_pending h = false ->
  Forall (fun h => is_pending h = false) (hs ++ [h]).
Proof. intros H1 H2. apply Forall_app. split; [exact H1 | now constructor]. Qed.

(** The loop pass on an armed button: the timer runs if it is due, the
    long-press event is published and the handle is left cancelled. *)
Lemma run_due_armed (t0 now : Q) (w : World) (p : Parent) :
  armed t0 w -> pb_parent (button w) = Some p ->
  if Qle_bool (t0 + long_press_time) now then
    exists hs h,
      run_due now w = ([(long_topic (button w), "ON")],
                       {| button := button w; handles := (hs ++ [h])%list |}) /\
      Forall (fun h => is_pending h = false) (hs ++ [h]) /\
      _long_press_task (button w) = Some (List.length hs) /\ _cancelled h = true
  else run_due now w = ([], w).
Proof.
  intros (hs & Hh & Hidle & Htask & Hpressed) Hp.
  set (h0 := {| when := (t0 + long_press_time)%Q; _cancelled := false; _ran := false |}) in *.
  assert (Hfirst : run_due_from (seq 0 (List.length hs)) now w = ([], w)).
  { apply run_due_from_idle. intros i h Hi Hn. apply in_seq in Hi.
    rewrite Hh, nth_error_app1 in Hn by lia.
    apply not_pending_not_due. rewrite Forall_forall in Hidle. apply Hidle.
    eapply nth_error_In; eauto. }
  assert (Hsplit : run_due now w = run_due_from [List.length hs] now w).
  { unfold run_due. rewrite Hh at 1. rewrite length_app. simpl List.length.
    rewrite seq_app, run_due_from_app, Hfirst. cbn [seq Nat.add].
    destruct (run_due_from [List.length hs] now w) as [e w']. reflexivity. }
  assert (Hlast : run_due_from [List.length hs] now w =
                  if Qle_bool (t0 + long_press_time) now
                  then let '(ev, w1) := run_handle (List.length hs) now w in
                       ((ev ++ [])%list, w1)
                  else ([], w)).
  { cbn [run_due_from]. rewrite Hh at 1. rewrite nth_error_last.
    unfold is_due. change (is_pending h0) with true.
    change (when h0) with (t0 + long_press_time)%Q. cbn [andb].
    destruct (Qle_bool (t0 + long_press_time) now); [|reflexivity].
    destruct (run_handle (List.length hs) now w). reflexivity. }
  destruct (Qle_bool (t0 + long_press_time) now); [|congruence].
  exists hs, {| when := (t0 + long_press_time)%Q; _cancelled := true; _ran := true |}.
  split; [|split; [|split]].
  - rewrite Hsplit, Hlast.
    unfold run_handle, long_press. simpl button. simpl handles.
    rewrite Hpressed, Htask. unfold publish. rewrite Hp.
    rewrite (PicoButton_str_pressed _ Hpressed).
    rewrite Hh. unfold mark_ran, cancel. rewrite !update_nth_last. reflexivity.
  - apply Forall_idle_app; [exact Hidle | reflexivity].
  - exact Htask.
  - reflexivity.
Qed.

Lemma PicoButton_call_Release (now : Q) (w : World) (p : Parent) :
  pb_parent (button w) = Some p ->
  let b1 := receive (button w) Release in
  PicoButton_call Release now w =
    match _long_press_task (button w) with
    | None => ([(state_topic (button w), "OFF")],
               {| button := with_task b1 None; handles := handles w |})
    | Some i =>
        ((if cancelled i (handles w)
          then [(state_topic (button w), "OFF"); (long_topic (button w), "OFF")]
          else [(state_topic (button w), "OFF")]),
         {| button := with_task b1 None; handles := cancel i (handles w) |})
    end.
Proof.
  intros Hp b1.
  destruct (receive_same (button w) Release) as [Hsame _]. fold b1 in Hsame.
  destruct (same_button_topics _ _ Hsame) as (Hst & _ & Hlt & Hpar).
  pose proof (receive_Release (button w)) as Hb. fold b1 in Hb.
  pose proof (receive_task (button w) Release) as Ht. fold b1 in Ht.
  unfold PicoButton_call, timing. fold b1. cbn [button handles]. rewrite Hb.
  unfold long_press. cbn [button handles]. rewrite Hb, Ht.
  unfold publish. rewrite Hpar, Hp, Hst, Hlt, (PicoButton_str_released _ Hb).
  destruct (_long_press_task (button w)) as [i|]; [|reflexivity].
  destruct (cancelled i (handles w)); reflexivity.
Qed.

Lemma PicoButton_call_Press_idle (now : Q) (w : World) (p : Parent) :
  pb_parent (button w) = Some p -> _long_press_task (button w) = None ->
  let b1 := receive (button w) Press in
  PicoButton_call Press now w =
    ((state_topic (button w), "ON") ::
       (if Qle_bool (now - start (button w)) double_click_time
        then [(double_topic (button w), "ON")] else []),
     {| button := with_task (with_start b1 now) (Some (List.length (handles w)));
        handles := (handles w ++
                    [ {| when := (now + long_press_time)%Q; _cancelled := false;
                         _ran := false |} ])%list |}).
Proof.
  intros Hp Hnone b1.
  destruct (receive_same (button w) Press) as [Hsame Hstart]. fold b1 in Hsame, Hstart.
  destruct (same_button_topics _ _ Hsame) as (Hst & Hdt & _ & Hpar).
  pose proof (receive_Press (button w)) as Hb. fold b1 in Hb.
  pose proof (receive_task (button w) Press) as Ht. fold b1 in Ht.
  unfold PicoButton_call, timing. fold b1. cbn [button handles]. rewrite Hb.
  unfold long_press. cbn [button handles].
  change (PicoButton_bool (with_start b1 now)) with (PicoButton_bool b1).
  change (_long_press_task (with_start b1 now)) with (_long_press_task b1).
  rewrite Hb, Ht, Hnone. unfold call_later.
  unfold publish. rewrite Hpar, Hp, Hst, Hdt, Hstart, (PicoButton_str_pressed _ Hb).
  destruct (Qle_bool (now - start (button w)) double_click_time); reflexivity.
Qed.

Lemma same_button_refl (b : PicoButton) : same_button b b.
Proof. split; reflexivity. Qed.

Lemma same_button_trans (a b c : PicoButton) :
  same_button a b -> same_button b c -> same_button a c.
Proof. intros [H1 H2] [H3 H4]. split; congruence. Qed.

Lemma same_button_received (b : PicoButton) (msg : PyVal) (t : option nat) :
  same_button b (with_task (receive b msg) t).
Proof. destruct (receive_same b msg) as [[Hs Hp] _]. split; [exact Hs | exact Hp]. Qed.

Lemma on_topic_app (t : string) (a b : list Event) :
  on_topic t (a ++ b) = (on_topic t a ++ on_topic t b)%list.
Proof. apply filter_app. Qed.

Lemma on_topic_state (b : PicoButton) (msg : string) (evs : list Event) :
  on_topic (long_topic b) ((state_topic b, msg) :: evs) = on_topic (long_topic b) evs.
Proof.
  unfold on_topic. cbn [filter fst].
  destruct (String.eqb_spec (state_topic b) (long_topic b)) as [E|_]; [|reflexivity].
  symmetry in E. now apply long_not_state in E.
Qed.

Lemma on_topic_double (b : PicoButton) (msg : string) (evs : list Event) :
  on_topic (long_topic b) ((double_topic b, msg) :: evs) = on_topic (long_topic b) evs.
Proof.
  unfold on_topic. cbn [filter fst].
  destruct (String.eqb_spec (double_topic b) (long_topic b)) as [E|_]; [|reflexivity].
  now apply double_not_long in E.
Qed.

Lemma on_topic_long (b : PicoButton) (msg : string) (evs : list Event) :
  on_topic (long_topic b) ((long_topic b, msg) :: evs) =
    (long_topic b, msg) :: on_topic (long_topic b) evs.
Proof. unfold on_topic. cbn [filter fst]. now rewrite String.eqb_refl. Qed.

Lemma same_button_started (b : PicoButton) (msg : PyVal) (s : Q) (t : option nat) :
  same_button b (with_task (with_start (receive b msg) s) t).
Proof. destruct (receive_same b msg) as [[Hs Hp] _]. split; [exact Hs | exact Hp]. Qed.

(** A press on a quiescent button arms its timer and publishes nothing on
    the long-press topic. *)
Lemma press_from_quiescent (t0 : Q) (w : World) (p : Parent) :
  quiescent w -> pb_parent (button w) = Some p ->
  on_topic (long_topic (button w)) (fst (deliver t0 Press w)) = [] /\
  armed t0 (snd (deliver t0 Press w)) /\
  same_button (button w) (button (snd (deliver t0 Press w))).
Proof.
  intros [Htask Hidle] Hp. unfold deliver.
  rewrite (run_due_quiescent _ _ Hidle), (PicoButton_call_Press_idle _ _ _ Hp Htask).
  cbn [fst snd app]. split; [|split].
  - rewrite on_topic_state.
    destruct (Qle_bool _ _); [rewrite on_topic_double|]; reflexivity.
  - exists (handles w). cbn [handles button]. repeat split; auto.
    change (PicoButton_bool (receive (button w) Press) = true). apply receive_Press.
  - cbn [button]. apply same_button_started.
Qed.

(** A release on a quiescent button publishes the state only. *)
Lemma release_from_quiescent (t : Q) (w : World) (p : Parent) :
  quiescent w -> pb_parent (button w) = Some p ->
  on_topic (long_topic (button w)) (fst (deliver t Release w)) = [] /\
  quiescent (snd (deliver t Release w)) /\
  same_button (button w) (button (snd (deliver t Release w))).
Proof.
  intros [Htask Hidle] Hp. unfold deliver.
  rewrite (run_due_quiescent _ _ Hidle), (PicoButton_call_Release _ _ _ Hp), Htask.
  cbn [fst snd app]. split; [|split].
  - now rewrite on_topic_state.
  - split; [reflexivity | exact Hidle].
  - cbn [button]. apply same_button_received.
Qed.

Lemma held_long_due (c : Cycle) :
  Qle_bool (press_at c + long_press_time) (release_at c) = held_long c.
Proof.
  unfold held_long, long_press_time.
  destruct (Qle_bool 1 (release_at c - press_at c)) eqn:E.
  - apply Qle_bool_iff. apply Qle_bool_iff in E. lra.
  - destruct (Qle_bool (press_at c + 1) (release_at c)) eqn:E'; [|reflexivity].
    apply Qle_bool_iff in E'. assert (H : (1 <= release_at c - press_at c)%Q) by lra.
    apply Qle_bool_iff in H. congruence.
Qed.

(** The release of an armed button: the long press and its release are
    published when the timer was due, nothing on that topic otherwise; the
    button is quiescent afterwards. *)
Lemma release_from_armed (t0 t1 : Q) (w : World) (p : Parent) :
  armed t0 w -> pb_parent (button w) = Some p ->
  on_topic (long_topic (button w)) (fst (deliver t1 Release w)) =
    (if Qle_bool (t0 + long_press_time) t1
     then [(long_topic (button w), "ON"); (long_topic (button w), "OFF")] else []) /\
  quiescent (snd (deliver t1 Release w)) /\
  same_button (button w) (button (snd (deliver t1 Release w))).
Proof.
  intros Harmed Hp. pose proof (run_due_armed t0 t1 w p Harmed Hp) as Hdue.
  unfold deliver.
  destruct (Qle_bool (t0 + long_press_time) t1).
  - destruct Hdue as (hs & h & Hrun & Hidle & Htask & Hc).
    rewrite Hrun.
    rewrite (PicoButton_call_Release t1 {| button := button w; handles := (hs ++ [h])%list |} p Hp).
    cbn [button handles]. rewrite Htask.
    unfold cancelled. rewrite nth_error_last, Hc. cbn [fst snd app]. split; [|split].
    + now rewrite on_topic_long, on_topic_state, on_topic_long.
    + split; [reflexivity|]. cbn [handles]. unfold cancel. rewrite update_nth_last.
      rewrite Forall_app in Hidle. destruct Hidle as [Hhs _].
      apply Forall_idle_app; [exact Hhs | reflexivity].
    + cbn [button]. apply same_button_received.
  - rewrite Hdue. destruct Harmed as (hs & Hh & Hidle & Htask & _).
    rewrite (PicoButton_call_Release _ _ _ Hp), Htask.
    unfold cancelled. rewrite Hh, nth_error_last. cbn [_cancelled fst snd app]. split; [|split].
    + now rewrite on_topic_state.
    + split; [reflexivity|]. cbn [handles]. unfold cancel. rewrite update_nth_last.
      apply Forall_idle_app; [exact Hidle | reflexivity].
    + cbn [button]. apply same_button_received.
Qed.

Lemma run_trace_cons (t : Q) (msg : PyVal) (r : list (Q * PyVal)) (w : World) :
  fst (run_trace ((t, msg) :: r) w) =
    (fst (deliver t msg w) ++ fst (run_trace r (snd (deliver t msg w))))%list /\
  snd (run_trace ((t, msg) :: r) w) = snd (run_trace r (snd (deliver t msg w))).
Proof.
  cbn [run_trace]. destruct (deliver t msg w) as [ev w1]. cbn [fst snd].
  destruct (run_trace r w1) as [ev' w2]. split; reflexivity.
Qed.

Lemma run_trace_app (a b : list (Q * PyVal)) (w : World) :
  fst (run_trace (a ++ b) w) =
    (fst (run_trace a w) ++ fst (run_trace b (snd (run_trace a w))))%list /\
  snd (run_trace (a ++ b) w) = snd (run_trace b (snd (run_trace a w))).
Proof.
  revert w. induction a as [|[t msg] r IH]; intros w.
  - split; reflexivity.
  - change (((t, msg) :: r) ++ b)%list with ((t, msg) :: (r ++ b))%list.
    destruct (run_trace_cons t msg (r ++ b) w) as [E1 E2].
    destruct (run_trace_cons t msg r w) as [E3 E4].
    destruct (IH (snd (deliver t msg w))) as [E5 E6].
    rewrite E1, E2, E3, E4, E5, E6. split; [now rewrite app_assoc | reflexivity].
Qed.

(** Repeated release notifications on a quiescent button publish nothing on
    the long-press topic. *)
Lemma retries_quiet (rs : list Q) (w : World) (p : Parent) :
  quiescent w -> pb_parent (button w) = Some p ->
  let run := run_trace (map (fun t => (t, Release)) rs) w in
  on_topic (long_topic (button w)) (fst run) = [] /\
  quiescent (snd run) /\ same_button (button w) (button (snd run)).
Proof.
  revert w. induction rs as [|t r IH]; intros w Hq Hp.
  - repeat split; try apply Hq.
  - cbn zeta. change (map (fun t0 => (t0, Release)) (t :: r))
      with ((t, Release) :: map (fun t0 => (t0, Release)) r).
    destruct (run_trace_cons t Release (map (fun t0 => (t0, Release)) r) w) as [E1 E2].
    rewrite E1, E2. clear E1 E2.
    destruct (release_from_quiescent t w p Hq Hp) as (Hev & Hq1 & Hs1).
    destruct (same_button_topics _ _ Hs1) as (_ & _ & Hlt & Hpar).
    assert (Hp1 : pb_parent (button (snd (deliver t Release w))) = Some p) by congruence.
    destruct (IH _ Hq1 Hp1) as (Hev' & Hq2 & Hs2).
    rewrite Hlt in Hev'. split; [|split].
    + rewrite on_topic_app, Hev, Hev'. reflexivity.
    + exact Hq2.
    + eapply same_button_trans; eauto.
Qed.

(** One cycle from a quiescent button. *)
Lemma cycle_long_events (c : Cycle) (w : World) (p : Parent) :
  quiescent w -> pb_parent (button w) = Some p ->
  let run := run_trace (cycle_trace c) w in
  on_topic (long_topic (button w)) (fst run) = long_events (button w) c /\
  quiescent (snd run) /\ same_button (button w) (button (snd run)).
Proof.
  intros Hq Hp. cbn zeta. unfold cycle_trace.
  set (rs := map (fun t => (t, Release)) (retries c)).
  destruct (run_trace_cons (press_at c) Press ((release_at c, Release) :: rs) w) as [E1 E2].
  rewrite E1, E2. clear E1 E2.
  destruct (press_from_quiescent (press_at c) w p Hq Hp) as (Hev1 & Harmed & Hs1).
  set (w1 := snd (deliver (press_at c) Press w)) in *.
  destruct (same_button_topics _ _ Hs1) as (_ & _ & Hlt1 & Hpar1).
  assert (Hp1 : pb_parent (button w1) = Some p) by congruence.
  destruct (run_trace_cons (release_at c) Release rs w1) as [E1 E2].
  rewrite E1, E2. clear E1 E2.
  destruct (release_from_armed (press_at c) (release_at c) w1 p Harmed Hp1)
    as (Hev2 & Hq2 & Hs2).
  set (w2 := snd (deliver (release_at c) Release w1)) in *.
  destruct (same_button_topics _ _ Hs2) as (_ & _ & Hlt2 & Hpar2).
  assert (Hp2 : pb_parent (button w2) = Some p) by congruence.
  destruct (retries_quiet (retries c) w2 p Hq2 Hp2) as (Hev3 & Hq3 & Hs3).
  fold rs in Hev3, Hq3, Hs3.
  rewrite Hlt2, Hlt1 in Hev3. rewrite Hlt1, held_long_due in Hev2.
  split; [|split].
  - rewrite !on_topic_app, Hev1, Hev2, Hev3, app_nil_r. reflexivity.
  - exact Hq3.
  - eapply same_button_trans; [exact Hs1|]. eapply same_button_trans; eauto.
Qed.

Lemma cycles_long_events (cycles : list Cycle) (w : World) (p : Parent) :
  quiescent w -> pb_parent (button w) = Some p ->
  on_topic (long_topic (button w)) (fst (run_trace (flat_map cycle_trace cycles) w)) =
    flat_map (long_events (button w)) cycles.
Proof.
  revert w. induction cycles as [|c r IH]; intros w Hq Hp; [reflexivity|].
  cbn [flat_map].
  destruct (run_trace_app (cycle_trace c) (flat_map cycle_trace r) w) as [E1 _].
  rewrite E1. clear E1.
  destruct (cycle_long_events c w p Hq Hp) as (Hev & Hq1 & Hs1).
  destruct (same_button_topics _ _ Hs1) as (_ & _ & Hlt & Hpar).
  assert (Hp1 : pb_parent (button (snd (run_trace (cycle_trace c) w))) = Some p) by congruence.
  pose proof (IH _ Hq1 Hp1) as Hrest.
  rewrite Hlt in Hrest.
  rewrite on_topic_app, Hev. f_equal.
  rewrite Hrest. apply flat_map_ext. intros a. unfold long_events. now rewrite Hlt.
Qed.

(** C5: over any alternating trace of presses and releases (each release
    repeated any number of times) that starts with no timer armed, the
    long-press topic receives, for each press held for at least 1.0 s, one
    long-press event followed by one long-press-release event, and for each
    press released sooner nothing at all. *)
Theorem long_press_once_per_hold (w : World) (p : Parent) (cycles : list Cycle)
    (Hp : pb_parent (button w) = Some p) (Hq : quiescent w) :
  on_topic (long_topic (button w)) (fst (run_trace (flat_map cycle_trace cycles) w)) =
    flat_map (fun c => if Qle_bool 1 (release_at c - press_at c)
                       then [(long_topic (button w), "ON"); (long_topic (button w), "OFF")]
                       else []) cycles.
Proof. exact (cycles_long_events cycles w p Hq Hp). Qed.

Lemma long_press_once_per_hold_witness :
  on_topic (long_topic (button Home.world))
    (fst (run_trace
            (flat_map cycle_trace
               [ {| press_at := 0; release_at := 3 # 10; retries := [4 # 10; 5 # 10] |};
                 {| press_at := 2; release_at := 3; retries := [7 # 2] |} ])
            Home.world)) =
  flat_map (fun c => if Qle_bool 1 (release_at c - press_at c)
                     then [(long_topic (button Home.world), "ON");
                           (long_topic (button Home.world), "OFF")]
                     else [])
    [ {| press_at := 0; release_at := 3 # 10; retries := [4 # 10; 5 # 10] |};
      {| press_at := 2; release_at := 3; retries := [7 # 2] |} ].
Proof.
  apply (long_press_once_per_hold Home.world Home.facade).
  - reflexivity.
  - split; [reflexivity | constructor].
Defined.

(** * Further properties of the code *)

(** ** Device names *)

Lemma normal_char (c : ascii) :
  let c' := lower_ascii (if Ascii.eqb c " " then "_"%char else c) in
  (negb (Ascii.eqb c' " ") && negb (is_upper c'))%bool = true /\
  lower_ascii (if Ascii.eqb c' " " then "_"%char else c') = c'.
Proof.
  destruct c as [[] [] [] [] [] [] [] []]; vm_compute; split; reflexivity.
Qed.

Lemma normalise_smap (s : string) :
  lower (replace_space s) =
    smap (fun c => lower_ascii (if Ascii.eqb c " " then "_"%char else c)) s.
Proof.
  unfold lower, replace_space. induction s as [|c r IH]; simpl; [reflexivity|].
  now rewrite IH.
Qed.

Lemma name_is_normal (d : DeviceDict) : is_normal (name d) = true.
Proof.
  unfold name, is_normal. rewrite normalise_smap.
  induction (dev_name d) as [|c r IH]; simpl; [reflexivity|].
  rewrite IH. rewrite (proj1 (normal_char c)). reflexivity.
Qed.

Lemma normalise_idempotent (s : string) :
  lower (replace_space (lower (replace_space s))) = lower (replace_space s).
Proof.
  rewrite !normalise_smap.
  induction s as [|c r IH]; simpl; [reflexivity|].
  rewrite IH. f_equal. exact (proj2 (normal_char c)).
Qed.

Lemma normalise_length (s : string) :
  String.length (lower (replace_space s)) = String.length s.
Proof.
  rewrite normalise_smap. induction s as [|c r IH]; simpl; [reflexivity|]. now rewrite IH.
Qed.

Lemma ascii_char (c : ascii) :
  Nat.ltb (nat_of_ascii c) 128 = true ->
  Nat.ltb (nat_of_ascii (lower_ascii (if Ascii.eqb c " " then "_"%char else c))) 128 = true.
Proof.
  destruct c as [[] [] [] [] [] [] [] []]; vm_compute; intros H; congruence.
Qed.

Lemma name_is_ascii (d : DeviceDict) : is_ascii (dev_name d) = true -> is_ascii (name d) = true.
Proof.
  unfold name, is_ascii. rewrite normalise_smap.
  induction (dev_name d) as [|c r IH]; simpl; [reflexivity|].
  intros H. apply andb_prop in H as [Hc Hr]. now rewrite (ascii_char c Hc), (IH Hr).
Qed.

(** X1: for a label of ASCII characters, the public name of the device is
    ASCII, has no space and no upper-case letter, is as long as the label,
    and is unchanged when it is used as a label again. *)
Theorem name_normal_form (d : DeviceDict) (H : is_ascii (dev_name d) = true) :
  is_ascii (name d) = true /\
  is_normal (name d) = true /\
  String.length (name d) = String.length (dev_name d) /\
  name {| dev_name := name d; dev_device_id := dev_device_id d; dev_type := dev_type d;
          dev_current_state := dev_current_state d;
          dev_button_number := dev_button_number d |} = name d.
Proof.
  split; [now apply name_is_ascii|]. split; [apply name_is_normal|]. split.
  - apply normalise_length.
  - apply normalise_idempotent.
Qed.

Lemma name_normal_form_witness :
  is_ascii "kitchen_lights" = true /\
  name (device Home.kitchen_lights) = "kitchen_lights" /\
  String.length (name (device Home.kitchen_lights)) = String.length "Kitchen Lights".
Proof.
  destruct (name_normal_form (device Home.kitchen_lights) eq_refl) as (Ha & _ & Hl & _).
  split; [exact Ha|]. split; [reflexivity | exact Hl].
Defined.

(** ** Looking a device up by name *)






Lemma find_button_first (dn : string) (v : PyVal) (l : list (string * PicoButton)) (id : string) :
  find_button dn v l = Some id ->
  exists pre b post,
    l = (pre ++ (id, b) :: post)%list /\
    name (pb_device b) = dn /\ button_match b v = true /\
    forall k b', In (k, b') pre -> ~ (name (pb_device b') = dn /\ button_match b' v = true).
Proof.
  induction l as [|[k b] r IH]; simpl; [discriminate|].
  destruct (String.eqb dn (name (pb_device b)) && button_match b v)%bool eqn:E.
  - intros [= <-]. apply andb_prop in E as [En Em]. apply String.eqb_eq in En.
    exists [], b, r. repeat split; auto.
  - intros Hf. destruct (IH Hf) as (pre & b0 & post & Hl & Hn & Hm & Hpre).
    exists ((k, b) :: pre), b0, post. subst r. repeat split; auto.
    intros k' b' [Hin|Hin].
    + injection Hin as <- <-. intros [Hn' Hm'].
      rewrite <- Hn', String.eqb_refl, Hm' in E. discriminate.
    + now apply Hpre in Hin.
Qed.

Lemma find_button_none (dn : string) (v : PyVal) (l : list (string * PicoButton)) :
  find_button dn v l = None ->
  forall k b, In (k, b) l -> ~ (name (pb_device b) = dn /\ button_match b v = true).
Proof.
  induction l as [|[k b] r IH]; simpl; [intros _ k b []|].
  destruct (String.eqb dn (name (pb_device b)) && button_match b v)%bool eqn:E; [discriminate|].
  intros Hf k' b' [Hin|Hin].
  - injection Hin as <- <-. intros [Hn' Hm'].
    rewrite <- Hn', String.eqb_refl, Hm' in E. discriminate.
  - exact (IH Hf k' b' Hin).
Qed.

Lemma find_device_first (dn : string) (l : list (string * Device)) (id : string) :
  find_device dn l = Some id ->
  exists pre d post,
    l = (pre ++ (id, d) :: post)%list /\ name (device d) = dn /\
    forall k d', In (k, d') pre -> name (device d') <> dn.
Proof.
  induction l as [|[k d] r IH]; simpl; [discriminate|].
  destruct (String.eqb_spec dn (name (device d))) as [E|E].
  - intros [= <-]. exists [], d, r. repeat split; auto.
  - intros Hf. destruct (IH Hf) as (pre & d0 & post & Hl & Hn & Hpre).
    exists ((k, d) :: pre), d0, post. subst r. repeat split; auto.
    intros k' d' [Hin|Hin].
    + injection Hin as <- <-. congruence.
    + now apply Hpre in Hin.
Qed.

Lemma find_device_some (dn : string) (l : list (string * Device)) (k : string) (d : Device) :
  In (k, d) l -> name (device d) = dn -> exists id, find_device dn l = Some id.
Proof.
  induction l as [|[k' d'] r IH]; simpl; [intros []|].
  intros Hin Hn. destruct (String.eqb_spec dn (name (device d'))) as [E|E]; [eauto|].
  destruct Hin as [Hin|Hin]; [|eauto]. injection Hin as <- <-. congruence.
Qed.

(** X3: a successful lookup returns the first match in registration order,
    buttons before devices: a button id is the key of the first registered
    button with that name that matches the designator; a device id is
    returned only when no registered button of that name matches, and is the
    key of the first registered device with that name.  No warning is
    logged (the log kept here holds the warnings; the info record of lines
    341 and 345 is not part of it). *)
Theorem lookup_first_match (self : Caseta) (dn : option string) (v : PyVal)
    (log : list LogRecord) (id : string) (is_button : bool)
    (H : _device_id_from_name self dn v = (log, Ok (Some id, is_button))) :
  log = [] /\
  exists br d, bridge self = Some br /\ dn = Some d /\
    if is_button then
      exists pre b post,
        _button_subscribers br = (pre ++ (id, b) :: post)%list /\
        name (pb_device b) = d /\ button_match b v = true /\
        forall k b', In (k, b') pre -> ~ (name (pb_device b') = d /\ button_match b' v = true)
    else
      (forall k b, In (k, b) (_button_subscribers br) ->
                   ~ (name (pb_device b) = d /\ button_match b v = true)) /\
      exists pre dv post,
        _subscribers br = (pre ++ (id, dv) :: post)%list /\ name (device dv) = d /\
        forall k d', In (k, d') pre -> name (device d') <> d.
Proof.
  unfold _device_id_from_name in H.
  destruct dn as [d|]; [|discriminate].
  destruct (str_truthy d); [|discriminate].
  destruct (bridge self) as [br|]; [|discriminate].
  destruct (find_button d v (_button_subscribers br)) as [i|] eqn:Eb.
  - injection H as <- <- <-. split; [reflexivity|]. exists br, d. repeat split.
    now apply find_button_first.
  - destruct (find_device d (_subscribers br)) as [i|] eqn:Ed; [|discriminate].
    injection H as <- <- <-. split; [reflexivity|]. exists br, d. repeat split.
    + now apply find_button_none.
    + now apply find_device_first.
Qed.

Lemma lookup_first_match_witness :
  @nil LogRecord = [] /\
  exists br d, bridge Home.caseta = Some br /\ Some "living_room_remote" = Some d /\
    exists pre b post,
      _button_subscribers br = (pre ++ ("102", b) :: post)%list /\
      name (pb_device b) = d /\ button_match b (PyStr "fav") = true /\
      forall k b', In (k, b') pre ->
                   ~ (name (pb_device b') = d /\ button_match b' (PyStr "fav") = true).
Proof.
  exact (lookup_first_match Home.caseta (Some "living_room_remote") (PyStr "fav") [] "102" true
           eq_refl).
Defined.

(** X4: with the bridge set up, an ASCII label under which a device is
    registered is found under its name for every designator that is None, a
    bool, an int or an ASCII string, and no warning is logged. *)
Theorem registered_device_found (self : Caseta) (br : Smartbridge) (k : string) (d : Device)
    (v : PyVal) (Hb : bridge self = Some br) (Hin : In (k, d) (_subscribers br))
    (Hlabel : is_ascii (dev_name (device d)) = true)
    (Hne : name (device d) <> "")
    (Hv : ascii_designator v = true) :
  exists id is_button,
    _device_id_from_name self (Some (name (device d))) v = ([], Ok (Some id, is_button)).
Proof.
  unfold _device_id_from_name. rewrite Hb.
  assert (Ht : str_truthy (name (device d)) = true).
  { unfold str_truthy. destruct (String.eqb_spec (name (device d)) ""); [contradiction|reflexivity]. }
  rewrite Ht.
  destruct (find_button (name (device d)) v (_button_subscribers br)) as [i|];
    [exists i, true; reflexivity|].
  destruct (find_device_some _ _ _ _ Hin eq_refl) as [j Hj]. rewrite Hj.
  exists j, false. reflexivity.
Qed.

Lemma registered_device_found_witness :
  exists id is_button,
    _device_id_from_name Home.caseta (Some (name (device Home.ceiling_fan))) (PyStr "off")
      = ([], Ok (Some id, is_button)).
Proof.
  apply (registered_device_found Home.caseta Home.smartbridge "7" Home.ceiling_fan (PyStr "off")).
  - reflexivity.
  - right. left. reflexivity.
  - reflexivity.
  - discriminate.
  - reflexivity.
Defined.

(** ** Button designators, continued *)

Lemma digits_all (d : Decimal.uint) : all_digits (NilEmpty.string_of_uint d) = true.
Proof. induction d; simpl; auto. Qed.

Lemma int_of_digits_acc (d : Decimal.uint) (a : positive) :
  int_of_digits (Zpos a) (NilEmpty.string_of_uint d) = Zpos (Pos.of_uint_acc d a).
Proof.
  revert a. induction d; intros a; cbn [NilEmpty.string_of_uint int_of_digits Pos.of_uint_acc];
    [reflexivity | rewrite <- IHd; f_equal ..].
  all: match goal with
       | |- context [nat_of_ascii ?c] =>
           let v := eval vm_compute in (Z.of_nat (nat_of_ascii c - 48)) in
           change (Z.of_nat (nat_of_ascii c - 48)) with v
       end; lia.
Qed.

Lemma int_of_digits_zero (d : Decimal.uint) :
  int_of_digits 0 (NilEmpty.string_of_uint d) = Z.of_N (Pos.of_uint d).
Proof.
  induction d; cbn [NilEmpty.string_of_uint int_of_digits Pos.of_uint]; [reflexivity | exact IHd | ..];
    cbn [Z.of_N]; rewrite <- int_of_digits_acc; f_equal.
Qed.

Lemma to_uint_nonnil (p : positive) : Pos.to_uint p <> Decimal.Nil.
Proof.
  intros E. pose proof (DecimalPos.Unsigned.of_to p) as H. rewrite E in H. discriminate.
Qed.

Lemma str_of_Z_nonneg (n : Z) :
  0 <= n -> isdigit (str_of_Z n) = true /\ int_of_string (str_of_Z n) = n.
Proof.
  intros Hn. destruct n as [|p|p]; [split; reflexivity | | lia].
  unfold str_of_Z, int_of_string. cbn [Z.to_int NilZero.string_of_int].
  unfold NilZero.string_of_uint.
  pose proof (to_uint_nonnil p) as Hnil.
  destruct (Pos.to_uint p) eqn:E; [contradiction | ..];
    rewrite <- E; (split;
      [ unfold isdigit; pose proof (digits_all (Pos.to_uint p)) as Hd;
        destruct (NilEmpty.string_of_uint (Pos.to_uint p)) eqn:Es;
        [ rewrite E in Es; discriminate | exact Hd ]
      | rewrite int_of_digits_zero, DecimalPos.Unsigned.of_to; reflexivity ]).
Qed.

Lemma str_of_Z_neg (n : Z) : n < 0 -> isdigit (str_of_Z n) = false.
Proof. intros Hn. destruct n as [|p|p]; try lia. reflexivity. Qed.

Lemma decimal_designator_aux (b : PicoButton) (n : Z) :
  0 <= n ->
  button_match b (PyStr (str_of_Z n)) = (button_number b =? n) /\
  button_match b (PyStr (str_of_Z n)) = button_match b (PyInt n).
Proof.
  intros Hn. destruct (str_of_Z_nonneg n Hn) as [Hd Hi].
  unfold button_match, button_number_from_name. rewrite Hd, Hi. split; reflexivity.
Qed.

(** X5: an ordinal written in decimal addresses exactly the button with
    that ordinal, as the int designator does, whatever the button's label. *)
Theorem decimal_designator (b : PicoButton) (n : Z) (Hn : 0 <= n) :
  button_match b (PyStr (str_of_Z n)) = (button_number b =? n) /\
  button_match b (PyStr (str_of_Z n)) = button_match b (PyInt n).
Proof. exact (decimal_designator_aux b n Hn). Qed.

Lemma decimal_designator_witness :
  button_match (Home.remote_button "103" 2) (PyStr (str_of_Z 2)) = (2 =? 2) /\
  button_match (Home.remote_button "103" 2) (PyStr (str_of_Z 2)) =
    button_match (Home.remote_button "103" 2) (PyInt 2).
Proof.
  apply (decimal_designator (Home.remote_button "103" 2) 2). lia.
Defined.

Lemma case_char (c : ascii) :
  upper_ascii (lower_ascii c) = upper_ascii c /\ upper_ascii (upper_ascii c) = upper_ascii c.
Proof. destruct c as [[] [] [] [] [] [] [] []]; vm_compute; split; reflexivity. Qed.

Lemma upper_lower (s : string) : upper (lower s) = upper s.
Proof.
  unfold upper, lower. induction s as [|c r IH]; simpl; [reflexivity|].
  now rewrite IH, (proj1 (case_char c)).
Qed.

Lemma upper_upper (s : string) : upper (upper s) = upper s.
Proof.
  unfold upper. induction s as [|c r IH]; simpl; [reflexivity|].
  now rewrite IH, (proj2 (case_char c)).
Qed.

Lemma digit_case (c : ascii) :
  is_digit (lower_ascii c) = is_digit c /\ is_digit (upper_ascii c) = is_digit c.
Proof. destruct c as [[] [] [] [] [] [] [] []]; vm_compute; split; reflexivity. Qed.

Lemma isdigit_case (s : string) :
  isdigit (lower s) = isdigit s /\ isdigit (upper s) = isdigit s.
Proof.
  assert (H : all_digits (lower s) = all_digits s /\ all_digits (upper s) = all_digits s).
  { unfold lower, upper. induction s as [|c r [IH1 IH2]]; simpl; [split; reflexivity|].
    rewrite IH1, IH2, (proj1 (digit_case c)), (proj2 (digit_case c)). split; reflexivity. }
  destruct s as [|c r]; [split; reflexivity|]. exact H.
Qed.

(** X6: a button whose label is not a number is addressed by that label as
    written, in lower case and in upper case. *)
Theorem label_designator (b : PicoButton) (H : isdigit (button_name b) = false) :
  button_match b (PyStr (button_name b)) = true /\
  button_match b (PyStr (lower (button_name b))) = true /\
  button_match b (PyStr (upper (button_name b))) = true.
Proof.
  destruct (isdigit_case (button_name b)) as [Hl Hu].
  unfold button_match, button_number_from_name.
  rewrite H, Hl, Hu, H, upper_lower, upper_upper, String.eqb_refl.
  cbn [int_eq]. rewrite Z.eqb_refl. auto.
Qed.

Lemma label_designator_witness :
  button_match (Home.remote_button "102" 1) (PyStr (button_name (Home.remote_button "102" 1))) = true /\
  button_match (Home.remote_button "102" 1) (PyStr "fav") = true /\
  button_match (Home.remote_button "102" 1) (PyStr "FAV") = true.
Proof.
  exact (label_designator (Home.remote_button "102" 1) eq_refl).
Defined.

(** X7: on a four-button Pico the labels are the numbers 1 to 4 on the
    ordinals 0 to 3, and a numeric designator is read as an ordinal: the
    label of a button never addresses that button, it addresses the button
    whose ordinal is one higher. *)
Theorem pico4_label_off_by_one (b c : PicoButton)
    (Ht : dev_type (pb_device b) = "Pico4Button")
    (Hn : 0 <= button_number b <= 3) :
  button_name b = str_of_Z (button_number b + 1) /\
  button_match b (PyStr (button_name b)) = false /\
  button_match c (PyStr (button_name b)) = (button_number c =? button_number b + 1).
Proof.
  assert (Hname : button_name b = str_of_Z (button_number b + 1)).
  { unfold button_name, layout. rewrite Ht.
    assert (Hc : button_number b = 0 \/ button_number b = 1 \/ button_number b = 2 \/
                 button_number b = 3) by lia.
    destruct Hc as [-> | [-> | [-> | ->]]]; reflexivity. }
  split; [exact Hname|]. rewrite Hname.
  assert (H1 : 0 <= button_number b + 1) by lia.
  split.
  - rewrite (proj1 (decimal_designator_aux b _ H1)). apply Z.eqb_neq. lia.
  - exact (proj1 (decimal_designator_aux c _ H1)).
Qed.

Lemma pico4_label_off_by_one_witness :
  button_name (PicoButton_init
                 {| dev_name := "Hall Remote"; dev_device_id := "201"; dev_type := "Pico4Button";
                    dev_current_state := PyStr "Release"; dev_button_number := 1 |}
                 (Some Home.facade) 0) = str_of_Z (1 + 1) /\
  button_match (PicoButton_init
                  {| dev_name := "Hall Remote"; dev_device_id := "201"; dev_type := "Pico4Button";
                     dev_current_state := PyStr "Release"; dev_button_number := 1 |}
                  (Some Home.facade) 0) (PyStr "2") = false.
Proof.
  pose proof (pico4_label_off_by_one
                (PicoButton_init
                   {| dev_name := "Hall Remote"; dev_device_id := "201";
                      dev_type := "Pico4Button"; dev_current_state := PyStr "Release";
                      dev_button_number := 1 |} (Some Home.facade) 0)
                (Home.remote_button "103" 2) eq_refl) as H.
  assert (Hn : 0 <= 1 <= 3) by lia.
  destruct (H Hn) as (H1 & H2 & _). split; [exact H1 | exact H2].
Defined.

(** X8: a button whose layout has no label for its ordinal is labelled with
    the ordinal in decimal, and that label addresses it, for negative
    ordinals too. *)
Theorem unlabelled_button_designator (b : PicoButton)
    (H : assocZ (button_number b) (layout (dev_type (pb_device b))) = None) :
  button_name b = str_of_Z (button_number b) /\
  button_match b (PyStr (button_name b)) = true.
Proof.
  assert (Hname : button_name b = str_of_Z (button_number b)).
  { unfold button_name. now rewrite H. }
  split; [exact Hname|].
  destruct (Z.le_gt_cases 0 (button_number b)) as [Hn|Hn].
  - rewrite Hname, (proj1 (decimal_designator_aux b _ Hn)). apply Z.eqb_refl.
  - unfold button_match, button_number_from_name.
    rewrite Hname at 1. rewrite (str_of_Z_neg _ Hn), String.eqb_refl.
    cbn [int_eq]. apply Z.eqb_refl.
Qed.

Lemma unlabelled_button_designator_witness :
  button_name (Home.remote_button "109" 7) = str_of_Z 7 /\
  button_match (Home.remote_button "109" 7) (PyStr (button_name (Home.remote_button "109" 7)))
    = true.
Proof.
  exact (unlabelled_button_designator (Home.remote_button "109" 7) eq_refl).
Defined.

(** ** The resolver, continued *)

Lemma In_firstn {A} (x : A) (n : nat) (l : list A) : In x (firstn n l) -> In x l.
Proof.
  intros H. rewrite <- (firstn_skipn n l). apply in_or_app. now left.
Qed.

Lemma In_args1 (command : option string) (args : list PyVal) (v : PyVal) :
  In (AVal v)
     (map (fun a => AVal (if opt_string_eqb command (Some "activate_scene")
                          then PyStr (py_str a) else a))
          (filter (fun a => negb (is_none a)) args)) ->
  exists a, In a args /\ a <> PyNone /\
            v = (if opt_string_eqb command (Some "activate_scene") then PyStr (py_str a) else a).
Proof.
  intros H. apply in_map_iff in H as (a & Ha & Hin).
  apply filter_In in Hin as [Hin Hnn]. exists a. split; [exact Hin|]. split.
  - intros ->. discriminate.
  - now injection Ha.
Qed.

Lemma no_bridge_in_args1 (command : option string) (args : list PyVal) :
  ~ In ABridge
      (map (fun a => AVal (if opt_string_eqb command (Some "activate_scene")
                           then PyStr (py_str a) else a))
           (filter (fun a => negb (is_none a)) args)).
Proof. intros H. apply in_map_iff in H as (a & Ha & _). discriminate. Qed.

(** The values of the assembled list: the device id, or a raw argument that
    is not None (as a string for activate_scene). *)
Lemma assemble_values (command : option string) (args : list PyVal) (dev : option string)
    (is_button : bool) (br : option Smartbridge) (v : PyVal) :
  In (AVal v) (assemble_args command args dev is_button br) ->
  (exists id, dev = Some id /\ str_truthy id = true /\ v = PyStr id) \/
  ((is_button = false \/ dev = None \/ dev = Some "") /\
   exists a, In a args /\ a <> PyNone /\
     v = (if opt_string_eqb command (Some "activate_scene") then PyStr (py_str a) else a)).
Proof.
  unfold assemble_args. intros H.
  assert (H2 : In (AVal v)
                 match dev with
                 | Some id =>
                     if str_truthy id then
                       if is_button then [AVal (PyStr id)]
                       else AVal (PyStr id) ::
                            map (fun a => AVal (if opt_string_eqb command (Some "activate_scene")
                                                then PyStr (py_str a) else a))
                                (filter (fun a => negb (is_none a)) args)
                     else map (fun a => AVal (if opt_string_eqb command (Some "activate_scene")
                                              then PyStr (py_str a) else a))
                              (filter (fun a => negb (is_none a)) args)
                 | None => map (fun a => AVal (if opt_string_eqb command (Some "activate_scene")
                                               then PyStr (py_str a) else a))
                               (filter (fun a => negb (is_none a)) args)
                 end).
  { destruct br; [destruct H as [H|H]; [discriminate | exact H] | exact H]. }
  clear H. destruct dev as [id|].
  - destruct (str_truthy id) eqn:Et.
    + destruct is_button.
      * destruct H2 as [H|[]]. injection H as <-. left. eauto.
      * destruct H2 as [H|H]; [injection H as <-; left; eauto|].
        right. split; [now left|]. now apply In_args1.
    + right. split; [|now apply In_args1].
      right. right. f_equal. unfold str_truthy in Et. apply negb_false_iff in Et.
      now apply String.eqb_eq in Et.
  - right. split; [auto|]. now apply In_args1.
Qed.

(** X9: None never reaches a callable: no element of the final argument
    list is None. *)
Theorem final_args_without_None (base : Caseta -> Msg -> M (option string * RawArgs))
    (self : Caseta) (msg : Msg) (log : list LogRecord) (command : option string)
    (final : list Arg)
    (H : Caseta_get_command base self msg = (log, Ok (command, final))) :
  ~ In (AVal PyNone) final.
Proof.
  destruct (Caseta_get_command_ok _ _ _ _ _ _ H)
    as (log0 & raw & dn & n & dev & isb & _ & _ & _ & _ & ->).
  intros Hin. apply In_firstn in Hin. apply assemble_values in Hin.
  destruct Hin as [(id & _ & _ & E) | (_ & a & _ & Hnn & E)]; [discriminate|].
  destruct (opt_string_eqb command (Some "activate_scene")); [discriminate | congruence].
Qed.

Lemma final_args_without_None_witness :
  ~ In (AVal PyNone) [AVal (PyStr "4")].
Proof.
  exact (final_args_without_None
           (Home.hands_back (Some "set_value") (ArgList [PyNone])) Home.caseta
           {| topic := "lutron/command/kitchen_lights/set_value"; payload := "" |}
           [] (Some "set_value") [AVal (PyStr "4")] eq_refl).
Defined.

Lemma assemble_bridge (command : option string) (args : list PyVal) (dev : option string)
    (is_button : bool) (br : option Smartbridge) :
  exists values,
    ~ In ABridge values /\
    assemble_args command args dev is_button br =
      match br with
      | Some _ => ABridge :: values
      | None => values
      end.
Proof.
  unfold assemble_args.
  eexists. split; [|reflexivity].
  pose proof (no_bridge_in_args1 command args) as Hn.
  destruct dev as [id|]; [|exact Hn].
  destruct (str_truthy id); [|exact Hn].
  destruct is_button.
  - intros [H|[]]. discriminate.
  - intros [H|H]; [discriminate | now apply Hn].
Qed.

(** X10: the bridge handle is in the final argument list only for a command
    of the bridge client on a bridge that is set up, and then it is the
    first argument and occurs once. *)
Theorem bridge_handle_placement (base : Caseta -> Msg -> M (option string * RawArgs))
    (self : Caseta) (msg : Msg) (log : list LogRecord) (command : option string)
    (final : list Arg)
    (H : Caseta_get_command base self msg = (log, Ok (command, final)))
    (Hin : In ABridge final) :
  (exists c f, command = Some c /\ assoc c (bridge_methods self) = Some f) /\
  bridge self <> None /\
  exists rest, final = ABridge :: rest /\ ~ In ABridge rest.
Proof.
  destruct (Caseta_get_command_ok _ _ _ _ _ _ H)
    as (log0 & raw & dn & n & dev & isb & _ & _ & _ & _ & ->).
  destruct (assemble_bridge command (as_list raw) dev isb (bridge_handle self command))
    as (values & Hnv & E).
  rewrite E in Hin |- *.
  destruct (bridge_handle self command) as [br|] eqn:Eb.
  - unfold bridge_handle in Eb. destruct command as [c|]; [|discriminate].
    destruct (assoc c (bridge_methods self)) as [f|] eqn:Ea; [|discriminate].
    split; [eauto|]. split; [congruence|].
    destruct n as [|n]; [destruct Hin|].
    exists (firstn n values). split; [reflexivity|].
    intros Hr. apply In_firstn in Hr. contradiction.
  - apply In_firstn in Hin. contradiction.
Qed.

Lemma bridge_handle_placement_witness :
  exists rest, [ABridge; AVal (PyStr "3")] = ABridge :: rest /\ ~ In ABridge rest.
Proof.
  exact (proj2 (proj2 (bridge_handle_placement
           (Home.hands_back (Some "activate_scene") (Scalar (PyInt 3))) Home.caseta
           {| topic := "lutron/command/activate_scene"; payload := "3" |}
           [Warning "Device: command NOT FOUND"] (Some "activate_scene")
           [ABridge; AVal (PyStr "3")] eq_refl (or_introl eq_refl)))).
Defined.

(** X11: when the target resolves to a button, the payload is dropped: the
    only value that reaches the callable is the button's id. *)
Theorem button_target_drops_payload (base : Caseta -> Msg -> M (option string * RawArgs))
    (self : Caseta) (msg : Msg) (log0 log : list LogRecord) (command dn : option string)
    (raw : RawArgs) (id : string) (final : list Arg)
    (Hbase : base self msg = (log0, Ok (command, raw)))
    (Htarget : target_device_name self (topic msg) command = Ok dn)
    (Hlookup : snd (call_device_id_from_name self dn (as_list raw)) = Ok (Some id, true))
    (Hid : id <> "")
    (H : Caseta_get_command base self msg = (log, Ok (command, final))) :
  forall v, In (AVal v) final -> v = PyStr id.
Proof.
  destruct (Caseta_get_command_ok _ _ _ _ _ _ H)
    as (log1 & raw' & dn' & n & dev & isb & Hb' & Ht' & _ & Hl' & ->).
  rewrite Hbase in Hb'. injection Hb' as <- <-.
  rewrite Htarget in Ht'. injection Ht' as <-.
  rewrite Hlookup in Hl'. injection Hl' as <- <-.
  intros v Hin. apply In_firstn in Hin. apply assemble_values in Hin.
  destruct Hin as [(id' & E & _ & ->) | ([Hf | [Hf | Hf]] & _)]; congruence.
Qed.

Lemma button_target_drops_payload_witness :
  In (AVal (PyStr "103")) [AVal (PyStr "103")] /\ PyStr "103" = PyStr "103".
Proof.
  split; [left; reflexivity|].
  apply (button_target_drops_payload
           (Home.hands_back (Some "click") (Scalar (PyStr "off"))) Home.caseta
           {| topic := "lutron/command/living_room_remote/click"; payload := "off" |}
           [] [] (Some "click") (Some "living_room_remote") (Scalar (PyStr "off")) "103"
           [AVal (PyStr "103")]); try reflexivity.
  - discriminate.
  - left. reflexivity.
Defined.

(** X12: every value passed to activate_scene is a string. *)
Theorem activate_scene_strings (base : Caseta -> Msg -> M (option string * RawArgs))
    (self : Caseta) (msg : Msg) (log : list LogRecord) (final : list Arg)
    (H : Caseta_get_command base self msg = (log, Ok (Some "activate_scene", final))) :
  forall v, In (AVal v) final -> exists s, v = PyStr s.
Proof.
  destruct (Caseta_get_command_ok _ _ _ _ _ _ H)
    as (log0 & raw & dn & n & dev & isb & _ & _ & _ & _ & ->).
  intros v Hin. apply In_firstn in Hin. apply assemble_values in Hin.
  destruct Hin as [(id & _ & _ & ->) | (_ & a & _ & _ & ->)]; [eauto|].
  exists (py_str a). reflexivity.
Qed.

Lemma activate_scene_strings_witness :
  exists s, PyStr "3" = PyStr s.
Proof.
  exact (activate_scene_strings
           (Home.hands_back (Some "activate_scene") (Scalar (PyInt 3))) Home.caseta
           {| topic := "lutron/command/activate_scene"; payload := "3" |}
           [Warning "Device: command NOT FOUND"] [ABridge; AVal (PyStr "3")] eq_refl
           (PyStr "3") (or_intror (or_introl eq_refl))).
Defined.

(** ** When the resolver raises *)

(** X13: a topic without a slash has no second-to-last segment: once the
    base resolver has returned, the resolution raises IndexError, whatever
    the command, the arguments and the registries. *)
Theorem single_segment_topic_raises (base : Caseta -> Msg -> M (option string * RawArgs))
    (self : Caseta) (msg : Msg) (log : list LogRecord) (command : option string)
    (raw : RawArgs) (s : string)
    (Hbase : base self msg = (log, Ok (command, raw)))
    (Htopic : split_on "/" (topic msg) = [s]) :
  Caseta_get_command base self msg = (log, Raise IndexError).
Proof.
  unfold Caseta_get_command, mbind, lift. rewrite Hbase.
  unfold target_device_name. rewrite Htopic. cbn. now rewrite app_nil_r.
Qed.

Lemma single_segment_topic_raises_witness :
  Caseta_get_command (Home.hands_back (Some "status") (ArgList [])) Home.caseta
    {| topic := "status"; payload := "" |} = ([], Raise IndexError).
Proof.
  exact (single_segment_topic_raises (Home.hands_back (Some "status") (ArgList [])) Home.caseta
           {| topic := "status"; payload := "" |} [] (Some "status") (ArgList []) "status"
           eq_refl eq_refl).
Defined.

(** X14: a command name that the base resolver hands back and that is not in
    the dispatch table raises KeyError before any device is looked up: no
    NOT FOUND warning is added to the log. *)
Theorem unknown_name_raises_KeyError (base : Caseta -> Msg -> M (option string * RawArgs))
    (self : Caseta) (msg : Msg) (log : list LogRecord) (c : string) (raw : RawArgs)
    (pre : list string) (a b : string)
    (Hbase : base self msg = (log, Ok (Some c, raw)))
    (Hc : c <> "")
    (Habsent : assoc c (_method_dict self) = None)
    (Htopic : split_on "/" (topic msg) = (pre ++ [a; b])%list) :
  Caseta_get_command base self msg = (log, Raise (KeyError c)).
Proof.
  unfold Caseta_get_command, mbind, lift. rewrite Hbase.
  rewrite (target_device_name_ok self (topic msg) (Some c) pre a b Htopic).
  cbn zeta. unfold nparams_of. rewrite Habsent.
  assert (Ht : str_truthy c = true).
  { unfold str_truthy. destruct (String.eqb_spec c ""); [contradiction | reflexivity]. }
  rewrite Ht. now rewrite !app_nil_r.
Qed.

Lemma unknown_name_raises_KeyError_witness :
  Caseta_get_command (Home.hands_back (Some "frobnicate") (Scalar (PyInt 1))) Home.caseta
    {| topic := "lutron/command/nowhere/frobnicate"; payload := "1" |}
  = ([], Raise (KeyError "frobnicate")).
Proof.
  apply (unknown_name_raises_KeyError
           (Home.hands_back (Some "frobnicate") (Scalar (PyInt 1))) Home.caseta
           {| topic := "lutron/command/nowhere/frobnicate"; payload := "1" |}
           [] "frobnicate" (Scalar (PyInt 1)) ["lutron"; "command"] "nowhere" "frobnicate");
    try reflexivity.
  discriminate.
Defined.

(** X15: until the bridge is set up, a known command that names a target
    raises AttributeError: the lookup reads the registries of a bridge that
    is not there. *)
Theorem target_before_setup_raises (base : Caseta -> Msg -> M (option string * RawArgs))
    (self : Caseta) (msg : Msg) (log : list LogRecord) (c d : string) (f : Callable)
    (raw : RawArgs)
    (Hbase : base self msg = (log, Ok (Some c, raw)))
    (Hc : c <> "")
    (Hknown : assoc c (_method_dict self) = Some f)
    (Htarget : target_device_name self (topic msg) (Some c) = Ok (Some d))
    (Hd : d <> "")
    (Hraw : (List.length (as_list raw) <= 1)%nat)
    (Hbridge : bridge self = None) :
  Caseta_get_command base self msg = (log, Raise AttributeError).
Proof.
  unfold Caseta_get_command, mbind, lift. rewrite Hbase, Htarget.
  cbn zeta. unfold nparams_of. rewrite Hknown.
  assert (Ht : str_truthy c = true).
  { unfold str_truthy. destruct (String.eqb_spec c ""); [contradiction | reflexivity]. }
  assert (Htd : str_truthy d = true).
  { unfold str_truthy. destruct (String.eqb_spec d ""); [contradiction | reflexivity]. }
  rewrite Ht.
  assert (E : forall v, _device_id_from_name self (Some d) v = ([], Raise AttributeError)).
  { intros v. unfold _device_id_from_name. rewrite Htd, Hbridge. reflexivity. }
  unfold call_device_id_from_name.
  destruct (as_list raw) as [|x [|y r]]; [| |simpl in Hraw; lia]; rewrite E;
    now rewrite !app_nil_r.
Qed.

Lemma target_before_setup_raises_witness :
  Caseta_get_command (Home.hands_back (Some "status") (ArgList []))
    (Caseta_init "caseta" (_method_dict Home.caseta) [])
    {| topic := "lutron/command/status"; payload := "" |}
  = ([], Raise AttributeError).
Proof.
  apply (target_before_setup_raises (Home.hands_back (Some "status") (ArgList []))
           (Caseta_init "caseta" (_method_dict Home.caseta) [])
           {| topic := "lutron/command/status"; payload := "" |}
           [] "status" "command" {| parameters := [] |} (ArgList []));
    try reflexivity; try discriminate.
  simpl. lia.
Defined.

(** ** The dispatch tables built at construction *)

Lemma assoc_dict_set {V} (k k' : string) (v : V) (d : list (string * V)) :
  assoc k (dict_set k' v d) = if String.eqb k k' then Some v else assoc k d.
Proof.
  induction d as [|[k0 v0] r IH]; simpl.
  - destruct (String.eqb k k'); reflexivity.
  - destruct (String.eqb_spec k' k0) as [->|Hne]; simpl.
    + destruct (String.eqb k k0); reflexivity.
    + destruct (String.eqb_spec k k0) as [->|Hne'].
      * destruct (String.eqb_spec k0 k'); [congruence | reflexivity].
      * exact IH.
Qed.

Lemma keys_dict_set {V} (k : string) (v : V) (d : list (string * V)) (x : string) :
  In x (map fst (dict_set k v d)) -> x = k \/ In x (map fst d).
Proof.
  induction d as [|[k0 v0] r IH]; simpl.
  - intros [H|[]]; auto.
  - destruct (String.eqb_spec k k0) as [->|Hne]; simpl.
    + intros [H|H]; auto.
    + intros [H|H]; auto. destruct (IH H); auto.
Qed.

Lemma nodup_dict_set {V} (k : string) (v : V) (d : list (string * V)) :
  NoDup (map fst d) -> NoDup (map fst (dict_set k v d)).
Proof.
  induction d as [|[k0 v0] r IH]; simpl; intros Hnd.
  - constructor; [intros [] | constructor].
  - inversion Hnd as [|? ? Hnin Hnd']; subst.
    destruct (String.eqb_spec k k0) as [->|Hne]; simpl.
    + constructor; assumption.
    + constructor; [|auto]. intros Hin. apply keys_dict_set in Hin as [E|Hin]; congruence.
Qed.

Lemma assoc_none_keys {V} (k : string) (d : list (string * V)) :
  assoc k d = None <-> ~ In k (map fst d).
Proof.
  induction d as [|[k0 v0] r IH]; simpl; [tauto|].
  destruct (String.eqb_spec k k0) as [->|Hne].
  - split; [discriminate | intros H; exfalso; apply H; now left].
  - rewrite IH. split; [intros H [E|Hin]; congruence | tauto].
Qed.

Lemma assoc_app {V} (k : string) (a b : list (string * V)) :
  assoc k (a ++ b) = match assoc k a with Some v => Some v | None => assoc k b end.
Proof.
  induction a as [|[k0 v0] r IH]; simpl; [reflexivity|].
  destruct (String.eqb k k0); [reflexivity | exact IH].
Qed.

Lemma assoc_rev_nodup {V} (k : string) (d : list (string * V)) :
  NoDup (map fst d) -> assoc k (rev d) = assoc k d.
Proof.
  induction d as [|[k0 v0] r IH]; simpl; intros Hnd; [reflexivity|].
  inversion Hnd as [|? ? Hnin Hnd']; subst.
  rewrite assoc_app, (IH Hnd'). simpl.
  destruct (String.eqb_spec k k0) as [->|Hne].
  - apply assoc_none_keys in Hnin. now rewrite Hnin.
  - destruct (assoc k r); reflexivity.
Qed.

Lemma assoc_dict_update_rev {V} (k : string) (d new : list (string * V)) :
  assoc k (dict_update d new) =
    match assoc k (rev new) with Some v => Some v | None => assoc k d end.
Proof.
  unfold dict_update. revert d. induction new as [|[k0 v0] r IH]; intros d; simpl.
  - reflexivity.
  - rewrite IH, assoc_app, assoc_dict_set. simpl.
    destruct (assoc k (rev r)); [reflexivity|].
    destruct (String.eqb k k0); reflexivity.
Qed.

(** What line 266 keeps: the accumulator has distinct keys, each of them a
    public name that the service does not define, with a callable that the
    class offers under that name. *)
Lemma build_bridge_methods_inv (own : list (string * Callable)) (dir : list (string * Attr))
    (acc : list (string * Callable)) :
  let step := fun (acc : list (string * Callable)) (entry : string * Attr) =>
    match snd entry with
    | Method f =>
        if (negb (startswith_underscore (fst entry)) && negb (has_key (fst entry) own))%bool
        then dict_set (fst entry) f acc else acc
    | Data => acc
    end in
  let good := fun (l : list (string * Attr)) (m : list (string * Callable)) =>
    NoDup (map fst m) /\
    forall k f, assoc k m = Some f ->
      startswith_underscore k = false /\ assoc k own = None /\ In (k, Method f) l in
  forall pre, good pre acc -> good (pre ++ dir)%list (fold_left step dir acc).
Proof.
  intros step good. revert acc. induction dir as [|[k0 a0] r IH]; intros acc pre Hg.
  - simpl. now rewrite app_nil_r.
  - simpl. replace (pre ++ (k0, a0) :: r)%list with ((pre ++ [(k0, a0)]) ++ r)%list
      by (now rewrite <- app_assoc).
    apply IH. destruct Hg as [Hnd Hall]. unfold step. simpl.
    assert (Hkeep : good (pre ++ [(k0, a0)])%list acc).
    { split; [exact Hnd|]. intros k f Hk. destruct (Hall k f Hk) as (H1 & H2 & H3).
      repeat split; auto. apply in_or_app. now left. }
    destruct a0 as [f0|]; [|exact Hkeep].
    destruct (startswith_underscore k0) eqn:Eu; [exact Hkeep|].
    unfold has_key. destruct (assoc k0 own) eqn:Eo; [exact Hkeep|]. simpl.
    split; [now apply nodup_dict_set|].
    intros k f Hk. rewrite assoc_dict_set in Hk.
    destruct (String.eqb_spec k k0) as [->|Hne].
    + injection Hk as <-. repeat split; auto. apply in_or_app. right. now left.
    + destruct (Hall k f Hk) as (H1 & H2 & H3). repeat split; auto.
      apply in_or_app. now left.
Qed.

Lemma bridge_methods_good (own : list (string * Callable)) (dir : list (string * Attr)) :
  NoDup (map fst (build_bridge_methods own dir)) /\
  forall k f, assoc k (build_bridge_methods own dir) = Some f ->
    startswith_underscore k = false /\ assoc k own = None /\ In (k, Method f) dir.
Proof.
  apply (build_bridge_methods_inv own dir [] []).
  split; [constructor | discriminate].
Qed.

Lemma own_not_bridge (own : list (string * Callable)) (dir : list (string * Attr))
    (k : string) (f : Callable) :
  assoc k own = Some f -> assoc k (build_bridge_methods own dir) = None.
Proof.
  intros Ho. destruct (assoc k (build_bridge_methods own dir)) as [g|] eqn:E; [|reflexivity].
  destruct (proj2 (bridge_methods_good own dir) k g E) as (_ & H & _). congruence.
Qed.

Lemma own_method_kept (name : string) (own : list (string * Callable))
    (dir : list (string * Attr)) (k : string) (f : Callable) :
  assoc k own = Some f ->
  assoc k (_method_dict (Caseta_init name own dir)) = Some f /\
  assoc k (bridge_methods (Caseta_init name own dir)) = None.
Proof.
  intros H. pose proof (own_not_bridge own dir k f H) as Hb.
  split; [|exact Hb]. cbn [Caseta_init _method_dict].
  rewrite assoc_dict_update_rev, (assoc_rev_nodup _ _ (proj1 (bridge_methods_good own dir))).
  now rewrite Hb.
Qed.

(** X16: a command that the service defines itself keeps its own callable
    in the dispatch table and is not a bridge method, even when the bridge
    client has a public method of the same name. *)
Theorem own_methods_take_precedence (name : string) (own : list (string * Callable))
    (dir : list (string * Attr)) (k : string) (f : Callable)
    (H : assoc k own = Some f) :
  assoc k (_method_dict (Caseta_init name own dir)) = Some f /\
  assoc k (bridge_methods (Caseta_init name own dir)) = None.
Proof. exact (own_method_kept name own dir k f H). Qed.

Lemma own_methods_take_precedence_witness :
  assoc "set_value" (_method_dict (Caseta_init "caseta" Startup.own Startup.dir))
    = Some {| parameters := ["device_id"; "value"; "fade_time"] |} /\
  assoc "set_value" (bridge_methods (Caseta_init "caseta" Startup.own Startup.dir)) = None.
Proof.
  exact (own_methods_take_precedence "caseta" Startup.own Startup.dir "set_value"
           {| parameters := ["device_id"; "value"; "fade_time"] |} eq_refl).
Defined.

(** X17: every bridge method of the service is a public callable of the
    bridge client that the service does not define, and the dispatch table
    resolves its name to that callable. *)
Theorem bridge_methods_public (name : string) (own : list (string * Callable))
    (dir : list (string * Attr)) (k : string) (f : Callable)
    (H : assoc k (bridge_methods (Caseta_init name own dir)) = Some f) :
  startswith_underscore k = false /\
  assoc k own = None /\
  In (k, Method f) dir /\
  assoc k (_method_dict (Caseta_init name own dir)) = Some f.
Proof.
  cbn [Caseta_init bridge_methods _method_dict] in *.
  destruct (proj2 (bridge_methods_good own dir) k f H) as (H1 & H2 & H3).
  repeat split; auto.
  rewrite assoc_dict_update_rev, (assoc_rev_nodup _ _ (proj1 (bridge_methods_good own dir))).
  now rewrite H.
Qed.

Lemma bridge_methods_public_witness :
  startswith_underscore "activate_scene" = false /\
  assoc "activate_scene" Startup.own = None /\
  In ("activate_scene", Method {| parameters := ["self"; "scene_id"] |}) Startup.dir /\
  assoc "activate_scene" (_method_dict (Caseta_init "caseta" Startup.own Startup.dir))
    = Some {| parameters := ["self"; "scene_id"] |}.
Proof.
  exact (bridge_methods_public "caseta" Startup.own Startup.dir "activate_scene"
           {| parameters := ["self"; "scene_id"] |} eq_refl).
Defined.

(** X18: a command that the service defines itself is never given the
    bridge handle, and its arguments are cut to the parameter count of the
    service's own callable. *)
Theorem own_command_without_bridge_handle
    (base : Caseta -> Msg -> M (option string * RawArgs))
    (name : string) (own : list (string * Callable)) (dir : list (string * Attr))
    (br : Smartbridge) (msg : Msg) (log : list LogRecord) (c : string) (f : Callable)
    (final : list Arg)
    (Hown : assoc c own = Some f) (Hc : c <> "")
    (H : Caseta_get_command base (with_bridge (Caseta_init name own dir) br) msg
         = (log, Ok (Some c, final))) :
  ~ In ABridge final /\ (List.length final <= List.length (parameters f))%nat.
Proof.
  destruct (Caseta_get_command_ok _ _ _ _ _ _ H)
    as (log0 & raw & dn & n & dev & isb & _ & _ & Hn & _ & ->).
  destruct (own_method_kept name own dir c f Hown) as [Hm Hb].
  assert (Ht : str_truthy c = true).
  { unfold str_truthy. destruct (String.eqb_spec c ""); [contradiction | reflexivity]. }
  split.
  - unfold bridge_handle. cbn [with_bridge bridge_methods]. 
    change (bridge_methods (Caseta_init name own dir)) with (build_bridge_methods own dir).
    rewrite (own_not_bridge own dir c f Hown).
    destruct (assemble_bridge (Some c) (as_list raw) dev isb None) as (values & Hnv & E).
    rewrite E. intros Hin. apply In_firstn in Hin. contradiction.
  - unfold nparams_of in Hn. rewrite Ht in Hn. cbn [with_bridge _method_dict] in Hn.
    rewrite Hm in Hn. injection Hn as <-. apply firstn_le_length.
Qed.

Lemma own_command_without_bridge_handle_witness :
  ~ In ABridge [AVal (PyStr "4"); AVal (PyInt 75)] /\
  (List.length [AVal (PyStr "4"); AVal (PyInt 75)] <= 3)%nat.
Proof.
  apply (own_command_without_bridge_handle
           (Home.hands_back (Some "set_value") (Scalar (PyInt 75)))
           "caseta" Startup.own Startup.dir Home.smartbridge
           {| topic := "lutron/command/kitchen_lights/set_value"; payload := "75" |}
           [] "set_value" {| parameters := ["device_id"; "value"; "fade_time"] |}
           [AVal (PyStr "4"); AVal (PyInt 75)]); try reflexivity.
  discriminate.
Defined.

(** ** Button timing, continued *)

Lemma long_press_silent (now : Q) (w : World) :
  pb_parent (button w) = None -> fst (fst (long_press now w)) = [].
Proof.
  intros Hp. unfold long_press, publish. rewrite Hp.
  destruct (PicoButton_bool (button w)); destruct (_long_press_task (button w)) as [i|];
    try destruct (negb (cancelled i (handles w))); reflexivity.
Qed.

Lemma run_due_from_silent (ids : list nat) (now : Q) (w : World) :
  pb_parent (button w) = None -> fst (run_due_from ids now w) = [].
Proof.
  revert w. induction ids as [|i r IH]; intros w Hp; simpl; [reflexivity|].
  destruct (nth_error (handles w) i) as [h|]; [|now apply IH].
  destruct (is_due now h); [|now apply IH].
  pose proof (run_handle_button i now w) as Hb.
  assert (He : fst (run_handle i now w) = []).
  { unfold run_handle.
    pose proof (long_press_silent now
                  {| button := button w; handles := mark_ran i (handles w) |} Hp) as Hl.
    destruct (long_press now _) as [[ev t] hs]. exact Hl. }
  destruct (run_handle i now w) as [ev w1]. cbn [fst snd] in *.
  assert (Hp1 : pb_parent (button w1) = None) by congruence.
  specialize (IH w1 Hp1). destruct (run_due_from r now w1) as [ev' w2]. cbn [fst] in *.
  now rewrite He, IH.
Qed.

Lemma PicoButton_call_silent (now : Q) (msg : PyVal) (w : World) :
  pb_parent (button w) = None -> fst (PicoButton_call msg now w) = [].
Proof.
  intros Hp.
  destruct (receive_same (button w) msg) as [[_ Hpar] _].
  assert (Hp1 : pb_parent (receive (button w) msg) = None) by congruence.
  unfold PicoButton_call, timing. cbn [button handles].
  destruct (PicoButton_bool (receive (button w) msg)).
  - pose proof (long_press_silent now
        {| button := with_start (receive (button w) msg) now; handles := handles w |} Hp1) as Hl.
    destruct (long_press now _) as [[ev2 task] hs]. cbn [fst snd] in *.
    unfold publish. rewrite Hp1, Hl. now destruct (Qle_bool _ _).
  - pose proof (long_press_silent now
        {| button := receive (button w) msg; handles := handles w |} Hp1) as Hl.
    destruct (long_press now _) as [[ev2 task] hs]. cbn [fst snd] in *.
    unfold publish. now rewrite Hp1, Hl.
Qed.

Lemma deliver_silent (now : Q) (msg : PyVal) (w : World) :
  pb_parent (button w) = None -> fst (deliver now msg w) = [].
Proof.
  intros Hp. unfold deliver.
  pose proof (run_due_from_silent (seq 0 (List.length (handles w))) now w Hp) as H1.
  destruct (run_due_keeps now w) as [Hb _]. unfold run_due in *.
  destruct (run_due_from _ now w) as [ev1 w1]. cbn [fst snd] in *.
  assert (Hp1 : pb_parent (button w1) = None) by congruence.
  pose proof (PicoButton_call_silent now msg w1 Hp1) as H2.
  destruct (PicoButton_call msg now w1) as [ev2 w2]. cbn [fst] in *.
  now rewrite H1, H2.
Qed.

(** X19: a button that was built without a parent publishes nothing,
    whatever notifications it receives and whatever timers run. *)
Theorem parentless_button_silent (tr : list (Q * PyVal)) (w : World)
    (Hp : pb_parent (button w) = None) :
  fst (run_trace tr w) = [].
Proof.
  revert w Hp. induction tr as [|[t msg] r IH]; intros w Hp; [reflexivity|].
  destruct (run_trace_cons t msg r w) as [E _]. rewrite E.
  rewrite (deliver_silent t msg w Hp).
  destruct (deliver_keeps t msg w) as [[_ Hpar] _].
  apply IH. congruence.
Qed.

Lemma parentless_button_silent_witness :
  fst (run_trace [(0%Q, Press); (2%Q, Release)]
         {| button := PicoButton_init (pb_device (Home.remote_button "103" 2)) None 0;
            handles := [] |}) = [].
Proof.
  exact (parentless_button_silent [(0%Q, Press); (2%Q, Release)]
           {| button := PicoButton_init (pb_device (Home.remote_button "103" 2)) None 0;
              handles := [] |} eq_refl).
Defined.

Lemma on_topic_long_only (b : PicoButton) (t : string) (evs : list Event) :
  on_long b evs -> t <> long_topic b -> on_topic t evs = [].
Proof.
  intros H Hne. unfold on_topic. apply filter_none. intros e He.
  unfold on_long in H. rewrite Forall_forall in H. rewrite (H e He).
  destruct (String.eqb_spec (long_topic b) t); [congruence | reflexivity].
Qed.

(** X20: every notification publishes the button's state exactly once on
    the state topic: ON when the state it leaves is Press, OFF otherwise. *)
Theorem one_state_event_per_notification (now : Q) (msg : PyVal) (w : World) (p : Parent)
    (Hp : pb_parent (button w) = Some p) :
  on_topic (state_topic (button w)) (fst (deliver now msg w)) =
    [(state_topic (button w),
      if PicoButton_bool (receive (button w) msg) then "ON" else "OFF")].
Proof.
  unfold deliver.
  destruct (run_due_keeps now w) as [Hb Hdue].
  destruct (run_due now w) as [ev1 w1]. cbn [fst snd] in *.
  destruct (PicoButton_call_events msg now w1) as (ev & Hl & He & _ & _).
  destruct (PicoButton_call msg now w1) as [ev2 w2]. cbn [fst snd] in *.
  rewrite Hb in *.
  destruct (receive_same (button w) msg) as [Hsame _].
  destruct (same_button_topics _ _ Hsame) as (Hst & Hdt & _ & Hpar).
  unfold publish, PicoButton_str in He. rewrite Hpar, Hp, Hst, Hdt in He.
  assert (Hns : state_topic (button w) <> long_topic (button w)).
  { intros E. symmetry in E. now apply long_not_state in E. }
  rewrite He, !on_topic_app.
  rewrite (on_topic_long_only _ _ _ Hdue Hns), (on_topic_long_only _ _ _ Hl Hns).
  assert (Hd : forall m, on_topic (state_topic (button w)) [(double_topic (button w), m)] = []).
  { intros m. unfold on_topic. cbn [filter fst].
    destruct (String.eqb_spec (double_topic (button w)) (state_topic (button w))) as [E|_];
      [now apply double_not_state in E | reflexivity]. }
  assert (Hs : forall m, on_topic (state_topic (button w)) [(state_topic (button w), m)]
                         = [(state_topic (button w), m)]).
  { intros m. unfold on_topic. cbn [filter fst]. now rewrite String.eqb_refl. }
  rewrite Hs. cbn [app].
  destruct (PicoButton_bool (receive (button w) msg));
    [destruct (Qle_bool _ _); [rewrite Hd|] |]; reflexivity.
Qed.

Lemma one_state_event_per_notification_witness :
  on_topic (state_topic (button Home.world)) (fst (deliver 0 Press Home.world)) =
    [(state_topic (button Home.world),
      if PicoButton_bool (receive (button Home.world) Press) then "ON" else "OFF")].
Proof.
  exact (one_state_event_per_notification 0 Press Home.world Home.facade eq_refl).
Defined.

(** X21: the press-start time is set when the button is built, so a first
    press emits a double-click event exactly when it comes within 0.5 s of
    the construction, although no press went before. *)
Theorem first_press_after_construction (d : DeviceDict) (p : Parent)
    (hs : list TimerHandle) (built now : Q) :
  In (double_topic (PicoButton_init d (Some p) built), "ON")
     (fst (deliver now Press
             {| button := PicoButton_init d (Some p) built; handles := hs |}))
  <-> (now - built <= 1 # 2)%Q.
Proof.
  set (w := {| button := PicoButton_init d (Some p) built; handles := hs |}).
  change (PicoButton_init d (Some p) built) with (button w).
  destruct (deliver_Press_events now w p eq_refl) as (ev_due & ev_long & Hdue & Hlong & He).
  rewrite He. change (start (button w)) with built.
  unfold on_long in Hdue, Hlong. rewrite Forall_forall in Hdue, Hlong.
  rewrite <- Qle_bool_iff. change (1 # 2) with double_click_time.
  rewrite !in_app_iff. split.
  - intros [H | [H | [H | H]]].
    + apply Hdue in H. simpl in H. now apply double_not_long in H.
    + destruct H as [H|[]]. injection H as H. symmetry in H. now apply double_not_state in H.
    + destruct (Qle_bool (now - built) double_click_time); [reflexivity | destruct H].
    + apply Hlong in H. simpl in H. now apply double_not_long in H.
  - intros H. right. right. left. rewrite H. now left.
Qed.

(** X22: a press notification that reaches a button whose timer is armed
    (a press repeated without a release) publishes a long-press event at
    once, twice if the timer was due, and leaves no timer armed. *)
Theorem repeated_press_long_event (t0 now : Q) (w : World) (p : Parent)
    (Harmed : armed t0 w) (Hp : pb_parent (button w) = Some p) :
  on_topic (long_topic (button w)) (fst (deliver now Press w)) =
    (if Qle_bool (t0 + long_press_time) now
     then [(long_topic (button w), "ON"); (long_topic (button w), "ON")]
     else [(long_topic (button w), "ON")]) /\
  quiescent (snd (deliver now Press w)).
Proof.
  pose proof (run_due_armed t0 now w p Harmed Hp) as Hdue.
  assert (Hcall : forall w' i,
      button w' = button w ->
      _long_press_task (button w) = Some i ->
      PicoButton_call Press now w' =
        ((state_topic (button w), "ON") ::
           (if Qle_bool (now - start (button w)) double_click_time
            then [(double_topic (button w), "ON")] else []) ++
           [(long_topic (button w), "ON")],
         {| button := with_task (with_start (receive (button w) Press) now) None;
            handles := cancel i (handles w') |})%list).
  { intros w' i Hbw Ht.
    destruct (receive_same (button w) Press) as [Hsame Hstart].
    destruct (same_button_topics _ _ Hsame) as (Hst & Hdt & Hlt & Hpar).
    pose proof (receive_Press (button w)) as Hb.
    pose proof (receive_task (button w) Press) as Hrt.
    unfold PicoButton_call, timing. rewrite Hbw. cbn [button handles]. rewrite Hb.
    unfold long_press. cbn [button handles].
    change (PicoButton_bool (with_start (receive (button w) Press) now))
      with (PicoButton_bool (receive (button w) Press)).
    change (_long_press_task (with_start (receive (button w) Press) now))
      with (_long_press_task (receive (button w) Press)).
    rewrite Hb, Hrt, Ht. unfold publish.
    change (pb_parent (with_start (receive (button w) Press) now))
      with (pb_parent (receive (button w) Press)).
    change (long_topic (with_start (receive (button w) Press) now))
      with (long_topic (receive (button w) Press)).
    change (PicoButton_str (with_start (receive (button w) Press) now))
      with (PicoButton_str (receive (button w) Press)).
    rewrite Hpar, Hp, Hst, Hdt, Hlt, Hstart, (PicoButton_str_pressed _ Hb).
    destruct (Qle_bool (now - start (button w)) double_click_time); reflexivity. }
  assert (Hrest :
      on_topic (long_topic (button w))
        ((state_topic (button w), "ON") ::
           (if Qle_bool (now - start (button w)) double_click_time
            then [(double_topic (button w), "ON")] else []) ++
           [(long_topic (button w), "ON")])%list = [(long_topic (button w), "ON")]).
  { rewrite on_topic_state, on_topic_app.
    destruct (Qle_bool (now - start (button w)) double_click_time);
      [rewrite on_topic_double|]; now rewrite on_topic_long. }
  unfold deliver.
  destruct (Qle_bool (t0 + long_press_time) now).
  - destruct Hdue as (hs & h & Hrun & Hidle & Htask & Hc).
    rewrite Hrun.
    rewrite (Hcall {| button := button w; handles := (hs ++ [h])%list |} _ eq_refl Htask).
    cbn [fst snd]. split.
    + rewrite on_topic_app, Hrest, on_topic_long. reflexivity.
    + split; [reflexivity|]. cbn [handles]. unfold cancel. rewrite update_nth_last.
      rewrite Forall_app in Hidle. destruct Hidle as [Hhs _].
      apply Forall_idle_app; [exact Hhs | reflexivity].
  - rewrite Hdue. destruct Harmed as (hs & Hh & Hidle & Htask & _).
    cbv beta iota. rewrite (Hcall w _ eq_refl Htask). cbn [fst snd]. split.
    + change ([] ++ ?l)%list with l. exact Hrest.
    + split; [reflexivity|]. cbn [handles]. rewrite Hh. unfold cancel. rewrite update_nth_last.
      apply Forall_idle_app; [exact Hidle | reflexivity].
Qed.

Lemma repeated_press_long_event_witness :
  on_topic (long_topic (button (snd (deliver 0 Press Home.world))))
    (fst (deliver (1 # 4) Press (snd (deliver 0 Press Home.world)))) =
    (if Qle_bool (0 + long_press_time) (1 # 4)
     then [(long_topic (button (snd (deliver 0 Press Home.world))), "ON");
           (long_topic (button (snd (deliver 0 Press Home.world))), "ON")]
     else [(long_topic (button (snd (deliver 0 Press Home.world))), "ON")]) /\
  quiescent (snd (deliver (1 # 4) Press (snd (deliver 0 Press Home.world)))).
Proof.
  apply (repeated_press_long_event 0 (1 # 4) (snd (deliver 0 Press Home.world)) Home.facade).
  - exists []. repeat split; try reflexivity. constructor.
  - reflexivity.
Defined.

(** ** set_value *)

(** X23: a tuple (value, fade, ...) is the same call as the value with the
    fade time given apart, whatever fade_time was passed beside the tuple
    and whatever follows the first two items. *)
Theorem set_value_tuple (int_of_str : string -> Result Z) (self : Caseta)
    (device_id f fade_time : PyArg) (v : PyVal) (rest : list PyArg) (n : Z)
    (H : py_int int_of_str f = Ok n) :
  set_value int_of_str self device_id (Tuple (Atom v :: f :: rest)) fade_time =
  set_value int_of_str self device_id (Atom v) (Atom (PyInt n)).
Proof.
  unfold set_value, unpack_value. cbn [nth_error]. rewrite H. reflexivity.
Qed.

Lemma set_value_tuple_witness :
  set_value (fun _ => Raise TypeError) Home.caseta (Atom (PyStr "4"))
    (Tuple [Atom (PyInt 75); Atom (PyInt 2)]) (Atom (PyInt 0)) =
  set_value (fun _ => Raise TypeError) Home.caseta (Atom (PyStr "4"))
    (Atom (PyInt 75)) (Atom (PyInt 2)).
Proof.
  exact (set_value_tuple (fun _ => Raise TypeError) Home.caseta (Atom (PyStr "4"))
           (Atom (PyInt 2)) (Atom (PyInt 0)) (PyInt 75) [] 2 eq_refl).
Defined.

(** X24: the words on and off, in any mix of upper and lower case, set the
    level 100 and 0; the string is not parsed as a number. *)
Theorem set_value_level_words (int_of_str : string -> Result Z) (self : Caseta)
    (device_id fade_time : PyArg) (s : string)
    (H : upper s = "ON" \/ upper s = "OFF") :
  set_value int_of_str self device_id (Atom (PyStr s)) fade_time =
  set_value int_of_str self device_id
    (Atom (PyInt (if String.eqb (upper s) "ON" then 100 else 0))) fade_time.
Proof.
  unfold set_value, unpack_value, parse_level. cbn [rbind fst snd].
  destruct H as [-> | ->]; reflexivity.
Qed.

Lemma set_value_level_words_witness :
  set_value (fun _ => Raise TypeError) Home.caseta (Atom (PyStr "4")) (Atom (PyStr "On"))
    (Atom (PyInt 0)) =
  Ok {| call_device_id := Atom (PyStr "4"); call_value := Atom (PyInt 100);
        call_fade_seconds := 0 |}.
Proof.
  exact (set_value_level_words (fun _ => Raise TypeError) Home.caseta (Atom (PyStr "4"))
           (Atom (PyInt 0)) "On" (or_introl eq_refl)).
Defined.

(** X25: when set_value reaches the bridge, the bridge is set up, the device
    id is passed on as it came, and the level is never a string. *)
Theorem set_value_call (int_of_str : string -> Result Z) (self : Caseta)
    (device_id value fade_time : PyArg) (call : BridgeCall)
    (H : set_value int_of_str self device_id value fade_time = Ok call) :
  bridge self <> None /\
  call_device_id call = device_id /\
  forall s, call_value call <> Atom (PyStr s).
Proof.
  unfold set_value in H.
  destruct (unpack_value int_of_str value fade_time) as [[v f]|e] eqn:Eu; [|discriminate].
  cbn [rbind fst snd] in H.
  destruct (parse_level int_of_str v) as [level|e] eqn:Ep; [|discriminate].
  cbn [rbind] in H.
  destruct (bridge self) as [br|]; [|discriminate].
  destruct (timedelta_seconds f) as [secs|e]; [|discriminate].
  cbn [rbind] in H. injection H as <-. cbn [call_device_id call_value].
  split; [discriminate|]. split; [reflexivity|].
  intros s Hs. subst level. unfold parse_level in Ep.
  destruct v as [[| b | n | t]|items]; try discriminate.
  destruct (String.eqb (upper t) "OFF"); [discriminate|].
  destruct (String.eqb (upper t) "ON"); [discriminate|].
  destruct (int_of_str t); discriminate.
Qed.

Lemma set_value_call_witness :
  bridge Home.caseta <> None /\
  call_device_id {| call_device_id := Atom (PyStr "4"); call_value := Atom (PyInt 0);
                    call_fade_seconds := 3 |} = Atom (PyStr "4") /\
  forall s, call_value {| call_device_id := Atom (PyStr "4"); call_value := Atom (PyInt 0);
                          call_fade_seconds := 3 |} <> Atom (PyStr s).
Proof.
  exact (set_value_call (fun _ => Raise TypeError) Home.caseta (Atom (PyStr "4"))
           (Atom (PyStr "off")) (Atom (PyInt 3))
           {| call_device_id := Atom (PyStr "4"); call_value := Atom (PyInt 0);
              call_fade_seconds := 3 |} eq_refl).
Defined.
